(** * Ink stream and fluid-static container: a shallow embedding

    The development follows two source units.

    - [stream.ts] (the ink [Stream] shared object): the optimistic
      local-apply / remote-apply state machine, reconnect, and the
      snapshot / load pair.
    - [containerCode.ts] and [FluidStatic.ts] (the fluid-static package):
      the data-object registry, on-demand creation through request paths,
      the first-time-creation hook and the process-wide [Fluid] handle.

    JavaScript objects that are shared and mutated (the container behind a
    [FluidContainer], the global [Fluid] instance) live in an explicit
    store that every operation threads through.  A [throw] is a [Throw]
    result carrying the error message the source builds, and an awaited
    promise that never settles is a [Pending] result. *)

From Stdlib Require Import ZArith Ascii String List Lia DecimalString.
From stdpp Require Import base option list gmap strings.

Open Scope string_scope.
Open Scope list_scope.

Set Warnings "-clear-no-such-hyp".

(** ** Exceptions *)

(** A thrown JavaScript [Error], identified by its message. *)
Record JsError := Error { message : string }.

(** The outcome of a call: a value, a thrown error or, for an awaited
    promise, no outcome at all ([Pending]: it never settles). *)
Inductive Result (A : Type) : Type :=
| Ok (a : A)
| Throw (e : JsError)
| Pending.
Arguments Ok {A} a.
Arguments Throw {A} e.
Arguments Pending {A}.

#[global] Instance Result_bind : MBind Result := fun _ _ k r =>
  match r with
  | Ok a => k a
  | Throw e => Throw e
  | Pending => Pending
  end.

(** ** Base64 text, as [Buffer] reads and writes it

    A buffer is a [string] read as a sequence of bytes; a JavaScript string
    is held as its utf-8 bytes, so that [Buffer.from(s, "utf-8")] and
    [toString("utf-8")] do not change the representation. *)

Module Base64.

Abbreviation Buffer := string.

(** The eight bits of a byte, most significant first. *)
Definition bits_of_byte (c : ascii) : list bool :=
  let 'Ascii b0 b1 b2 b3 b4 b5 b6 b7 := c in
  [b7; b6; b5; b4; b3; b2; b1; b0].

Fixpoint bits_of_bytes (s : Buffer) : list bool :=
  match s with
  | EmptyString => []
  | String c rest => bits_of_byte c ++ bits_of_bytes rest
  end.

(** Whole bytes of a bit sequence; an incomplete last group is dropped. *)
Fixpoint bytes_of_bits (bs : list bool) : Buffer :=
  match bs with
  | b7 :: b6 :: b5 :: b4 :: b3 :: b2 :: b1 :: b0 :: rest =>
      String (Ascii b0 b1 b2 b3 b4 b5 b6 b7) (bytes_of_bits rest)
  | _ => EmptyString
  end.

Definition alphabet : string :=
  "ABCDEFGHIJKLMNOPQRSTUVWXYZabcdefghijklmnopqrstuvwxyz0123456789+/".

Definition pad_char : ascii := "="%char.

Definition bit (b : bool) : nat := if b then 1 else 0.

Definition sextet_value (a b c d e f : bool) : nat :=
  32 * bit a + 16 * bit b + 8 * bit c + 4 * bit d + 2 * bit e + bit f.

(** The digit of a six-bit group. *)
Definition digit (a b c d e f : bool) : ascii :=
  match String.get (sextet_value a b c d e f) alphabet with
  | Some ch => ch
  | None => pad_char
  end.

Fixpoint index_of (ch : ascii) (s : string) : option nat :=
  match s with
  | EmptyString => None
  | String c rest =>
      if Ascii.eqb c ch then Some 0 else S <$> index_of ch rest
  end.

Definition sextet_bits (n : nat) : list bool :=
  [Nat.testbit n 5; Nat.testbit n 4; Nat.testbit n 3;
   Nat.testbit n 2; Nat.testbit n 1; Nat.testbit n 0].

(** The six bits a digit stands for; [None] for any other character. *)
Definition digit_bits (ch : ascii) : option (list bool) :=
  sextet_bits <$> index_of ch alphabet.

(** Digits of a bit sequence, the last group filled up with zero bits. *)
Fixpoint encode_bits (bs : list bool) : string :=
  match bs with
  | a :: b :: c :: d :: e :: f :: rest =>
      String (digit a b c d e f) (encode_bits rest)
  | [a; b; c; d; e] => String (digit a b c d e false) EmptyString
  | [a; b; c; d] => String (digit a b c d false false) EmptyString
  | [a; b; c] => String (digit a b c false false false) EmptyString
  | [a; b] => String (digit a b false false false false) EmptyString
  | [a] => String (digit a false false false false false) EmptyString
  | [] => EmptyString
  end.

(** [=] signs that bring the length up to a multiple of four. *)
Definition padding (n : nat) : string :=
  match n mod 4 with
  | 0 => ""
  | 1 => "==="
  | 2 => "=="
  | _ => "="
  end.

(** [buf.toString("base64")]. *)
Definition encode (buf : Buffer) : string :=
  let body := encode_bits (bits_of_bytes buf) in
  body +:+ padding (String.length body).

(** The bits of base64 text: the data ends at the first [=], and a
    character outside the alphabet is skipped. *)
Fixpoint decode_bits (s : string) : list bool :=
  match s with
  | EmptyString => []
  | String ch rest =>
      if Ascii.eqb ch pad_char then []
      else match digit_bits ch with
           | Some bs => bs ++ decode_bits rest
           | None => decode_bits rest
           end
  end.

(** [Buffer.from(s, "base64")]. *)
Definition decode (s : string) : Buffer :=
  bytes_of_bits (decode_bits s).

End Base64.

(** ** Snapshot trees and the storage boundary *)

Module Storage.

(** Snapshot trees.  [FileMode], [TreeEntry] and [ITree] are declared in
    container-definitions, which is not among the sources: the records
    follow the object literal that [snapshotContent] builds, and the
    enumerations list the members the source names next to their
    directory counterparts. *)
Inductive FileMode := File | Directory.
Inductive TreeEntry := Blob | Tree.

(** [TreeEntry[TreeEntry.Blob]]: the name of the member. *)
Definition TreeEntry_name (t : TreeEntry) : string :=
  match t with Blob => "Blob" | Tree => "Tree" end.

Record IBlob := { contents : string; encoding : string }.

Record ITreeEntry := {
  mode : FileMode;
  path : string;
  entry_type : string;
  value : IBlob;
}.

Record ITree := { entries : list ITreeEntry; sha : option string }.

(** [buf.toString("utf-8")] and [Buffer.from(s, "utf-8")]: strings are held
    as their utf-8 bytes. *)
Definition toString_utf8 (buf : Base64.Buffer) : string := buf.
Definition Buffer_from_utf8 (s : string) : Base64.Buffer := s.

(** Modelled from the spec: the storage service is an external
    collaborator, its code is not among the sources.  The boundary is
    [writeSnapshotBlob(path, bytes)] and [readSnapshotBlob(path)], an entry
    is [{path, encoding: "utf-8" | "base64", content}]: the store keeps the
    bytes of each blob under its path, decoded as the entry's encoding
    says.  [read] hands them out as base64 text, which is what
    [loadContent] decodes. *)
Abbreviation IObjectStorageService := (gmap string Base64.Buffer).

Definition blob_bytes (b : IBlob) : option Base64.Buffer :=
  if String.eqb (encoding b) "utf-8" then Some (Buffer_from_utf8 (contents b))
  else if String.eqb (encoding b) "base64" then Some (Base64.decode (contents b))
  else None.

Definition storage_write_entry (storage : IObjectStorageService)
    (e : ITreeEntry) : IObjectStorageService :=
  if String.eqb (entry_type e) (TreeEntry_name Blob) then
    match blob_bytes (value e) with
    | Some bytes => <[path e := bytes]> storage
    | None => storage
    end
  else storage.

Definition storage_write (tree : ITree) (storage : IObjectStorageService)
    : IObjectStorageService :=
  foldl storage_write_entry storage (entries tree).

Definition storage_read (storage : IObjectStorageService) (p : string)
    : option string :=
  Base64.encode <$> storage !! p.

End Storage.

(** ** The ink stream ([stream.ts]) *)

Module InkStream.

(** Message kinds.

    Modelled from the spec: [MessageType] is declared in
    container-definitions, which is not among the sources; the data model
    gives an operation the type [Operation | Content | Signal]. *)
Inductive MessageType := Operation | Content | Signal.

Definition MessageType_eqb (a b : MessageType) : bool :=
  match a, b with
  | Operation, Operation | Content, Content | Signal, Signal => true
  | _, _ => false
  end.

Section Stream.

(** [IInkLayer] and [IDelta] are declared in [interfaces.ts], not among the
    sources; the stream never looks inside them. *)
Context {IInkLayer IDelta : Type}.

(** [ISnapshot]: the layer list and the index from layer id to position. *)
Record ISnapshot := mkSnapshot {
  layers : list IInkLayer;
  layerIndex : gmap string Z;
}.

(** The [Snapshot] class carries the two [ISnapshot] fields. *)
Definition Snapshot := ISnapshot.

(** [Snapshot.apply] and [Snapshot.Clone] live in [snapshot.ts], not among
    the sources: both are parameters of the development.  [apply] mutates
    the receiver, so it is a state transformer here. *)
Variable apply : Snapshot -> IDelta -> Snapshot.
Variable Clone : ISnapshot -> Snapshot.

(** [JSON.stringify] and [JSON.parse] at the snapshot type.  They belong to
    the language, not to the program: parameters as well.  [JSON.parse]
    throws on text that is not JSON. *)
Variable JSON_stringify : Snapshot -> string.
Variable JSON_parse : string -> Result ISnapshot.

(** [ISequencedDocumentMessage], with the fields of the data model. *)
Record ISequencedDocumentMessage := mkMessage {
  type : MessageType;
  clientId : string;
  sequenceNumber : Z;
  minimumSequenceNumber : Z;
  contents : IDelta;
}.

(** A [Stream]: its own field [inkSnapshot], and the part of the inherited
    shared-object state that [submitLocalMessage] touches. *)
Record Stream := mkStream {
  inkSnapshot : Snapshot;
  pendingLocalOps : list IDelta;
  outbound : list IDelta;
}.

Definition set_inkSnapshot (s : Stream) (ink : Snapshot) : Stream :=
  {| inkSnapshot := ink;
     pendingLocalOps := pendingLocalOps s;
     outbound := outbound s |}.

(** Modelled from the spec: [submitLocalMessage] is inherited from the
    shared-object base class, which is not among the sources.  Of
    [submitLocal] the spec says that it appends the operation to
    [pendingLocalOps] and forwards it for transmission; [outbound] is the
    sequence of operations handed to the connection, oldest first. *)
Definition submitLocalMessage (op : IDelta) (s : Stream) : Stream :=
  {| inkSnapshot := inkSnapshot s;
     pendingLocalOps := pendingLocalOps s ++ [op];
     outbound := outbound s ++ [op] |}.

Definition snapshotFileName : string := "header".

Definition emptySnapshot : ISnapshot :=
  {| layers := []; layerIndex := ∅ |}.

(** [a[i]] on a JavaScript array: [undefined] (here [None]) when the index
    is itself [undefined], negative or past the end. *)
Definition array_get {A : Type} (a : list A) (i : option Z) : option A :=
  match i with
  | Some z => if (z <? 0)%Z then None else a !! Z.to_nat z
  | None => None
  end.

Definition getLayers (s : Stream) : list IInkLayer :=
  layers (inkSnapshot s).

Definition getLayer (key : string) (s : Stream) : option IInkLayer :=
  array_get (layers (inkSnapshot s)) (layerIndex (inkSnapshot s) !! key).

Definition submitOp (op : IDelta) (s : Stream) : Stream :=
  let s1 := submitLocalMessage op s in
  set_inkSnapshot s1 (apply (inkSnapshot s1) op).

Definition initialize (data : ISnapshot) (s : Stream) : Stream :=
  set_inkSnapshot s (Clone data).

Definition initializeContent (s : Stream) : Stream :=
  initialize emptySnapshot s.

(** A string in a condition: the empty string counts as false. *)
Definition truthy (s : string) : bool := negb (String.eqb s "").

Definition loadContent (minimumSequenceNumber : Z) (headerOrigin : string)
    (storage : Storage.IObjectStorageService) (s : Stream) : Result Stream :=
  let header := Storage.storage_read storage snapshotFileName in
  data ← match header with
         | Some h =>
             if truthy h
             then JSON_parse (Storage.toString_utf8 (Base64.decode h))
             else Ok emptySnapshot
         | None => Ok emptySnapshot
         end;
  Ok (initialize data s).

Definition snapshotContent (s : Stream) : Storage.ITree :=
  {| Storage.entries :=
       [ {| Storage.mode := Storage.File;
            Storage.path := snapshotFileName;
            Storage.entry_type := Storage.TreeEntry_name Storage.Blob;
            Storage.value :=
              {| Storage.contents := JSON_stringify (inkSnapshot s);
                 Storage.encoding := "utf-8" |} |} ];
     Storage.sha := None |}.

Definition processContent (message : ISequencedDocumentMessage) (local : bool)
    (s : Stream) : Stream :=
  if MessageType_eqb (type message) Operation && negb local
  then set_inkSnapshot s (apply (inkSnapshot s) (contents message))
  else s.

(** The [for ... of] loop of [onConnectContent]; [pending] is the array the
    base class hands in, a value of its own. *)
Fixpoint onConnectContent (pending : list IDelta) (s : Stream) : Stream :=
  match pending with
  | [] => s
  | message :: rest => onConnectContent rest (submitLocalMessage message s)
  end.

End Stream.

Arguments ISnapshot : clear implicits.
Arguments Snapshot : clear implicits.
Arguments Stream : clear implicits.
Arguments ISequencedDocumentMessage : clear implicits.

End InkStream.

(** ** The fluid-static package ([containerCode.ts], [FluidStatic.ts]) *)

Module FluidStatic.

Record IFluidDataStoreFactory := { type : string }.

Record IFluidStaticDataObjectClass := { factory : IFluidDataStoreFactory }.

(** A registry entry is the pair [[type, Promise.resolve(factory)]]. *)
Abbreviation NamedFluidDataStoreRegistryEntry :=
  (string * IFluidDataStoreFactory)%type.

(** The type tags of a registry, in order. *)
Definition typeTags (entries : list NamedFluidDataStoreRegistryEntry)
    : list string := entries.*1.

(** Two entries at different places have the same type tag. *)
Definition shares_typeTag (entries : list NamedFluidDataStoreRegistryEntry)
    : Prop :=
  exists (i j : nat) (e1 e2 : NamedFluidDataStoreRegistryEntry),
    i <> j /\ entries !! i = Some e1 /\ entries !! j = Some e2 /\ e1.1 = e2.1.

(** [dataObjectClassToRegistryEntry] of [getRegistryEntries]. *)
Definition dataObjectClassToRegistryEntry
    (dataObjectClass : IFluidStaticDataObjectClass)
    : NamedFluidDataStoreRegistryEntry :=
  (type (factory dataObjectClass), factory dataObjectClass).


(** [`${value}`] for a registry entry: the array's elements joined by a
    comma, the second one a promise. *)
Definition entry_toString (value : NamedFluidDataStoreRegistryEntry) : string :=
  value.1 +:+ ",[object Promise]".

(** A live data object: its id and the type it was created from. *)
Record DataObject := { id : string; pkg : string }.

(** Rejections by the container runtime and by the service.  Of the first
    the text is the runtime's; of the others the sources hold no text, and
    they are named by their kind, as is [NotFoundError] below. *)
Definition UnregisteredPackageError (pkg : string) : JsError :=
  Error ("Registry does not contain entry for the package " +:+ pkg).

Definition DuplicateIdError : JsError := Error "DuplicateIdError".

Definition DocumentInUseError : JsError := Error "DocumentInUseError".

Definition NonExistingContainerError : JsError :=
  Error "NonExistingContainerError".

(** The id, and the package, of the agent scheduler that the runtime keeps
    in every container. *)
Definition schedulerId : string := "_scheduler".

(** Modelled from the spec: the container runtime is not among the
    sources.  It holds the instance map from data-object id to live
    instance, which only grows within a session; the model keeps the root
    data objects in creation order. *)
Record IContainerRuntime := { dataStores : list DataObject }.

Definition hasDataStore (i : string) (runtime : IContainerRuntime) : bool :=
  existsb (fun d => String.eqb (id d) i) (dataStores runtime).

(** Modelled from the spec: creating a root data object.  The creation is
    a fatal error when the id is already in use (the choice left open by
    the spec, taken as the runtime takes it) and when the type is absent
    from the registry the runtime was loaded with; the scheduler's package
    is always known to the runtime.  A rejected creation leaves the
    runtime as it is. *)
Definition createRootDataStore (registry : gset string) (pkg id : string)
    (runtime : IContainerRuntime) : Result IContainerRuntime :=
  if hasDataStore id runtime then Throw DuplicateIdError
  else if bool_decide (pkg ∈ registry) || String.eqb pkg schedulerId then
    Ok {| dataStores := dataStores runtime ++ [ {| id := id; pkg := pkg |} ] |}
  else Throw (UnregisteredPackageError pkg).

(** The runtime of a container that is new: it holds the scheduler. *)
Definition newRuntime : IContainerRuntime :=
  {| dataStores := [ {| id := schedulerId; pkg := schedulerId |} ] |}.

Record IResponse := { status : Z; value : option DataObject }.

(** Modelled from the spec: a path other than a creation path resolves to
    the data object whose id is its first part ([runtime.request] and
    [innerRequestHandler] are not among the sources).  The spec lists a
    [NotFoundError] for an unknown data-object id; the runtime instead
    waits for a data object with the id to arrive, which in a world of one
    client never happens, and the model follows the runtime: the request
    does not settle. *)
Definition runtime_request (pathParts : list string) (runtime : IContainerRuntime)
    : Result IResponse :=
  match pathParts with
  | i :: _ =>
      match List.find (fun d => String.eqb (id d) i) (dataStores runtime) with
      | Some d => Ok {| status := 200; value := Some d |}
      | None => Pending
      end
  | [] => Ok {| status := 404; value := None |}
  end.

Definition innerRequestHandler := runtime_request.

(** The non-empty parts of a url between slashes, as [RequestParser] hands
    them to the handlers; [cur] is the part being read. *)
Fixpoint pathParts_from (url cur : string) : list string :=
  match url with
  | EmptyString => if String.eqb cur "" then [] else [cur]
  | String ch rest =>
      if Ascii.eqb ch "/"%char
      then (if String.eqb cur "" then pathParts_from rest ""
            else cur :: pathParts_from rest "")
      else pathParts_from rest (cur +:+ String ch EmptyString)
  end.

Definition pathParts (url : string) : list string := pathParts_from url "".

(** [createRequestHandler]: [None] is the handler returning [undefined],
    which passes the request on to the next handler.  [registry] is the
    registry of the runtime the handler is called with.  When the awaited
    creation is rejected, so is the handler, before any sub-request. *)
Definition createRequestHandler (registry : gset string) (parts : list string)
    (runtime : IContainerRuntime)
    : option (Result IResponse * IContainerRuntime) :=
  match parts with
  | [p0; p1; p2] =>
      if String.eqb p0 "create" then
        Some (match createRootDataStore registry p1 p2 runtime with
              | Ok runtime' => (runtime_request [p2] runtime', runtime')
              | Throw e => (Throw e, runtime)
              | Pending => (Pending, runtime)
              end)
      else None
  | _ => None
  end.

(** The handler list [[createRequestHandler, innerRequestHandler]]. *)
Definition container_request (registry : gset string) (url : string)
    (runtime : IContainerRuntime) : Result IResponse * IContainerRuntime :=
  let parts := pathParts url in
  match createRequestHandler registry parts runtime with
  | Some r => r
  | None => (innerRequestHandler parts runtime, runtime)
  end.

Record DOProviderContainerRuntimeFactory := {
  registryEntries : list NamedFluidDataStoreRegistryEntry;
  initialDataObjects : list (string * IFluidStaticDataObjectClass);
}.

(** The constructor; the second parameter defaults to the empty list. *)
Definition new_DOProviderContainerRuntimeFactory
    (registryEntries : list NamedFluidDataStoreRegistryEntry)
    (initialDataObjects : option (list (string * IFluidStaticDataObjectClass)))
    : DOProviderContainerRuntimeFactory :=
  {| registryEntries := registryEntries;
     initialDataObjects := default [] initialDataObjects |}.

(** The registry of the runtimes a factory sets up: the type tags it
    passes to its base class. *)
Definition factory_registry (this : DOProviderContainerRuntimeFactory)
    : gset string :=
  list_to_set (typeTags (registryEntries this)).

(** The root data objects that an eager-initialization list asks for. *)
Definition eager_objects (l : list (string * IFluidStaticDataObjectClass))
    : list DataObject :=
  (fun p => {| id := p.1; pkg := type (factory p.2) |}) <$> l.

(** An eager list that a runtime over [registry] accepts as a whole: the
    ids differ from one another and from the scheduler's, and every class
    is in the registry. *)
Definition eager_list_ok (registry : gset string)
    (l : list (string * IFluidStaticDataObjectClass)) : Prop :=
  NoDup l.*1 /\
  Forall (fun p => p.1 <> schedulerId /\ type (factory p.2) ∈ registry) l.

#[global] Instance eager_list_ok_dec registry l :
  Decision (eager_list_ok registry l).
Proof. unfold eager_list_ok. apply _. Defined.

(** The loop of [containerInitializingFirstTime]: a creation that is
    rejected ends it, the entries after it are not reached. *)
Fixpoint createInitialDataObjects (registry : gset string)
    (l : list (string * IFluidStaticDataObjectClass))
    (runtime : IContainerRuntime) : Result IContainerRuntime :=
  match l with
  | [] => Ok runtime
  | (i, dataObject) :: rest =>
      runtime' ← createRootDataStore registry (type (factory dataObject)) i
                   runtime;
      createInitialDataObjects registry rest runtime'
  end.

Definition containerInitializingFirstTime
    (this : DOProviderContainerRuntimeFactory) (runtime : IContainerRuntime)
    : Result IContainerRuntime :=
  createInitialDataObjects (factory_registry this) (initialDataObjects this)
    runtime.

(** Modelled from the spec: the base runtime factory, which is not among
    the sources, runs the first-time-creation hook exactly once, when a
    container is created, never when an existing one is opened, and before
    the container is considered ready. *)
Definition instantiateRuntime (this : DOProviderContainerRuntimeFactory)
    (existing : bool) (runtime : IContainerRuntime) : Result IContainerRuntime :=
  if existing then Ok runtime else containerInitializingFirstTime this runtime.

(** An [IContainer] as the code holds it: the document it was opened on,
    and the registry of the factory it was opened with. *)
Record IContainer := { document : string; registry : gset string }.

Section World.

(** [IGetContainerService] is declared in the get-container package; this
    code only stores it and passes it on. *)
Context {IGetContainerService : Type}.

Record FluidInstance := { containerService : IGetContainerService }.

(** The mutable objects: the documents of the backing service, each with
    its container runtime, and the module-level variable [globalFluid].  A
    [FluidContainer] refers to its container by the document id. *)
Record World := {
  documents : gmap string IContainerRuntime;
  globalFluid : option FluidInstance;
}.

Definition set_documents (w : World) (d : gmap string IContainerRuntime) : World :=
  {| documents := d; globalFluid := globalFluid w |}.

Definition set_globalFluid (w : World) (g : option FluidInstance) : World :=
  {| documents := documents w; globalFluid := g |}.

(** The spec's names for the error kinds it lists; of [NotFoundError] the
    sources hold no message. *)
Definition NotFoundError : JsError := Error "NotFoundError".

Definition UnregisteredTypeError (type : string) : JsError :=
  Error ("Trying to create a DataObject with type " +:+ type +:+
         " that was not defined in Container initialization").

(** Modelled from the spec: [getContainer] of the get-container package is
    not among the sources.  Creating and loading are distinct paths.
    With [createNew] a container is set up as a new one and then attached
    under the id: when the set-up is rejected nothing is attached, and an
    id already in use is refused, the document under it kept.  Without
    [createNew] the document is opened and its runtime set up as an
    existing one; for an id the service does not know it opens a document
    all the same, sets it up as a new one, and the call then fails
    because the container did not exist: the document stays behind.  The
    result is the container, ready for use. *)
Definition getContainer (service : IGetContainerService) (id : string)
    (containerRuntimeFactory : DOProviderContainerRuntimeFactory)
    (createNew : bool) (w : World) : Result string * World :=
  if createNew then
    match documents w !! id with
    | Some _ => (Throw DocumentInUseError, w)
    | None =>
        match instantiateRuntime containerRuntimeFactory false newRuntime with
        | Ok runtime => (Ok id, set_documents w (<[id := runtime]> (documents w)))
        | Throw e => (Throw e, w)
        | Pending => (Pending, w)
        end
    end
  else
    match documents w !! id with
    | Some stored =>
        match instantiateRuntime containerRuntimeFactory true stored with
        | Ok runtime => (Ok id, set_documents w (<[id := runtime]> (documents w)))
        | Throw e => (Throw e, w)
        | Pending => (Pending, w)
        end
    | None =>
        match instantiateRuntime containerRuntimeFactory false newRuntime with
        | Ok runtime =>
            (Throw NonExistingContainerError,
             set_documents w (<[id := runtime]> (documents w)))
        | Throw e => (Throw e, w)
        | Pending => (Pending, w)
        end
    end.

(** [container.request({ url })] on the container a reference denotes. *)
Definition IContainer_request (container : IContainer) (url : string) (w : World)
    : Result IResponse * World :=
  match documents w !! document container with
  | Some runtime =>
      let '(response, runtime') :=
        container_request (registry container) url runtime in
      (response,
       set_documents w (<[document container := runtime']> (documents w)))
  | None => (Ok {| status := 404; value := None |}, w)
  end.

(** Modelled from the spec: [getObjectWithIdFromContainer] (aqueduct, not
    among the sources) requests [/id] from the container and resolves to
    the object of the response; a response without an object is a
    [NotFoundError].  It settles when the request does. *)
Definition getObjectWithIdFromContainer (i : string) (container : IContainer)
    (w : World) : Result DataObject * World :=
  let '(r, w') := IContainer_request container ("/" +:+ i) w in
  match r with
  | Ok response =>
      match value response with
      | Some d => (Ok d, w')
      | None => (Throw NotFoundError, w')
      end
  | Throw e => (Throw e, w')
  | Pending => (Pending, w')
  end.

Record FluidContainer := {
  container : string;
  types : gset string;
  createNew : bool;
}.

(** [this.container]: the container of the document, opened with the
    factory over the registry entries that [types] was built from (both
    are made from the same entries wherever the code constructs a
    [FluidContainer]). *)
Definition this_container (this : FluidContainer) : IContainer :=
  {| document := container this; registry := types this |}.

(** The [forEach] of the constructor over the registry entries, [types]
    being the set built so far. *)
Fixpoint FluidContainer_forEach
    (namedRegistryEntries : list NamedFluidDataStoreRegistryEntry)
    (types : gset string) : Result (gset string) :=
  match namedRegistryEntries with
  | [] => Ok types
  | value :: rest =>
      let type := value.1 in
      if bool_decide (type ∈ types) then
        Throw (Error ("Multiple DataObjects share the same type identifier "
                      +:+ entry_toString value))
      else FluidContainer_forEach rest (types ∪ {[ type ]})
  end.

Definition new_FluidContainer (container : string)
    (namedRegistryEntries : list NamedFluidDataStoreRegistryEntry)
    (createNew : bool) : Result FluidContainer :=
  types ← FluidContainer_forEach namedRegistryEntries ∅;
  Ok {| container := container; types := types; createNew := createNew |}.

Definition FluidContainer_getDataObject (this : FluidContainer) (i : string)
    (w : World) : Result DataObject * World :=
  getObjectWithIdFromContainer i (this_container this) w.

(** The awaited create request comes first: when it is rejected or never
    settles, so does [createDataObject], without the lookup. *)
Definition FluidContainer_createDataObject (this : FluidContainer)
    (dataObjectClass : IFluidStaticDataObjectClass) (i : string) (w : World)
    : Result DataObject * World :=
  let type := type (factory dataObjectClass) in
  if negb (bool_decide (type ∈ types this)) then
    (Throw (UnregisteredTypeError type), w)
  else
    let '(r, w1) :=
      IContainer_request (this_container this)
        ("/create/" +:+ type +:+ "/" +:+ i) w in
    match r with
    | Ok _ => FluidContainer_getDataObject this i w1
    | Throw e => (Throw e, w1)
    | Pending => (Pending, w1)
    end.

Record ContainerConfig := { dataObjects : list IFluidStaticDataObjectClass }.

(** [initialDataObjects] is optional.  Its type [IdToDataObjectCollection]
    is imported from [containerCode.ts], which does not declare it; the
    value goes to the constructor of [DOProviderContainerRuntimeFactory],
    and has the type of that parameter here: a list of pairs of an id and
    a class. *)
Record ContainerCreateConfig := {
  config_base :> ContainerConfig;
  config_initialDataObjects : option (list (string * IFluidStaticDataObjectClass));
}.

(** [new FluidInstance(service)]; [None] is [undefined], which only an
    untyped caller can pass. *)
Definition new_FluidInstance (getContainerService : option IGetContainerService)
    : Result FluidInstance :=
  match getContainerService with
  | None => Throw (Error "Fluid cannot be initialized without a ContainerService")
  | Some service => Ok {| containerService := service |}
  end.

Definition FluidInstance_getRegistryEntries
    (dataObjects : list IFluidStaticDataObjectClass)
    : Result (list NamedFluidDataStoreRegistryEntry) :=
  if (length dataObjects =? 0)%nat then
    Throw (Error "Container cannot be initialized without DataObjects")
  else
    Ok ((fun dataObjectClass =>
           (type (factory dataObjectClass), factory dataObjectClass))
        <$> dataObjects).

Definition FluidInstance_createContainer (this : FluidInstance) (id : string)
    (config : ContainerCreateConfig) (w : World) : Result FluidContainer * World :=
  match FluidInstance_getRegistryEntries (dataObjects config) with
  | Ok registryEntries =>
      match getContainer (containerService this) id
              (new_DOProviderContainerRuntimeFactory registryEntries
                 (config_initialDataObjects config))
              true w with
      | (Ok container, w') => (new_FluidContainer container registryEntries true, w')
      | (Throw e, w') => (Throw e, w')
      | (Pending, w') => (Pending, w')
      end
  | Throw e => (Throw e, w)
  | Pending => (Pending, w)
  end.

Definition FluidInstance_getContainer (this : FluidInstance) (id : string)
    (config : ContainerConfig) (w : World) : Result FluidContainer * World :=
  match FluidInstance_getRegistryEntries (dataObjects config) with
  | Ok registryEntries =>
      match getContainer (containerService this) id
              (new_DOProviderContainerRuntimeFactory registryEntries None)
              false w with
      | (Ok container, w') => (new_FluidContainer container registryEntries false, w')
      | (Throw e, w') => (Throw e, w')
      | (Pending, w') => (Pending, w')
      end
  | Throw e => (Throw e, w)
  | Pending => (Pending, w)
  end.

(** The [Fluid] object over the module-level [globalFluid]. *)
Definition Fluid_init (getContainerService : option IGetContainerService)
    (w : World) : Result unit * World :=
  match globalFluid w with
  | Some _ => (Throw (Error "Fluid cannot be initialized more than once"), w)
  | None =>
      match new_FluidInstance getContainerService with
      | Ok instance => (Ok tt, set_globalFluid w (Some instance))
      | Throw e => (Throw e, w)
      | Pending => (Pending, w)
      end
  end.

Definition Fluid_createContainer (id : string) (config : ContainerCreateConfig)
    (w : World) : Result FluidContainer * World :=
  match globalFluid w with
  | None =>
      (Throw (Error ("Fluid has not been properly initialized before " +:+
                     "attempting to create a container")), w)
  | Some instance => FluidInstance_createContainer instance id config w
  end.

Definition Fluid_getContainer (id : string) (config : ContainerConfig)
    (w : World) : Result FluidContainer * World :=
  match globalFluid w with
  | None =>
      (Throw (Error ("Fluid has not been properly initialized before " +:+
                     "attempting to get a container")), w)
  | Some instance => FluidInstance_getContainer instance id config w
  end.

End World.

Arguments FluidInstance : clear implicits.
Arguments World : clear implicits.

End FluidStatic.

(** ** A small ink model to run the stream on

    Layers are bare layer ids, and an operation adds the layer it names at
    the end of the list and records its position in the index. *)

Module InkExample.

Import InkStream.

Definition apply (ink : Snapshot string) (op : string) : Snapshot string :=
  {| layers := layers ink ++ [op];
     layerIndex := <[op := Z.of_nat (length (layers ink))]> (layerIndex ink) |}.

Definition Clone (data : ISnapshot string) : Snapshot string :=
  {| layers := layers data; layerIndex := layerIndex data |}.

Definition fresh : Stream string string :=
  {| inkSnapshot := Clone emptySnapshot; pendingLocalOps := []; outbound := [] |}.

Definition message (t : MessageType) (op : string)
    : ISequencedDocumentMessage string :=
  {| type := t; clientId := "client-1"; sequenceNumber := 5;
     minimumSequenceNumber := 3; contents := op |}.

(** Two strokes drawn locally. *)
Definition drawn : Stream string string :=
  submitOp apply "b" (submitOp apply "a" fresh).

(** A printer and a reader for the snapshots of this model, in the layout
    [JSON.stringify] gives a [Snapshot]: the object of [layers], an array
    of strings, and [layerIndex], an object of numbers.  Layer ids are
    taken to need no escaping. *)

Definition quote_char : ascii := "034"%char.

Definition quoted (s : string) : string :=
  String quote_char (s +:+ String quote_char "").

Fixpoint join (sep : string) (l : list string) : string :=
  match l with
  | [] => ""
  | [x] => x
  | x :: rest => x +:+ sep +:+ join sep rest
  end.

Definition decimal (z : Z) : string := NilZero.string_of_int (Z.to_int z).

Definition index_entry (p : string * Z) : string :=
  quoted p.1 +:+ ":" +:+ decimal p.2.

Definition JSON_stringify (ink : Snapshot string) : string :=
  "{" +:+ quoted "layers" +:+ ":[" +:+ join "," (quoted <$> layers ink)
  +:+ "]," +:+ quoted "layerIndex" +:+ ":{"
  +:+ join "," (index_entry <$> map_to_list (layerIndex ink)) +:+ "}}".

(** What is left of [s] after the literal [lit]. *)
Fixpoint expect (lit s : string) : option string :=
  match lit, s with
  | EmptyString, _ => Some s
  | String a lit', String b s' => if Ascii.eqb a b then expect lit' s' else None
  | String _ _, EmptyString => None
  end.

Fixpoint until_quote (s : string) : option (string * string) :=
  match s with
  | EmptyString => None
  | String ch rest =>
      if Ascii.eqb ch quote_char then Some ("", rest)
      else p ← until_quote rest; Some (String ch p.1, p.2)
  end.

Definition read_quoted (s : string) : option (string * string) :=
  rest ← expect (String quote_char "") s; until_quote rest.

Definition is_digit (ch : ascii) : bool :=
  (48 <=? nat_of_ascii ch)%nat && (nat_of_ascii ch <=? 57)%nat.

Fixpoint number_end (s : string) : string * string :=
  match s with
  | EmptyString => ("", "")
  | String ch rest =>
      if is_digit ch || Ascii.eqb ch "-"%char
      then let p := number_end rest in (String ch p.1, p.2)
      else ("", s)
  end.

Definition read_number (s : string) : option (Z * string) :=
  let p := number_end s in
  z ← NilZero.int_of_string p.1; Some (Z.of_int z, p.2).

Definition read_index_entry (s : string) : option ((string * Z) * string) :=
  k ← read_quoted s;
  rest ← expect ":" k.2;
  v ← read_number rest;
  Some ((k.1, v.1), v.2).

(** Items separated by commas, up to the closing bracket [close]. *)
Fixpoint read_items {A : Type} (item : string -> option (A * string))
    (close : ascii) (fuel : nat) (first : bool) (s : string)
    : option (list A * string) :=
  match fuel, s with
  | S fuel', String ch rest =>
      if Ascii.eqb ch close then Some ([], rest)
      else
        s1 ← (if first then Some s else expect "," s);
        x ← item s1;
        xs ← read_items item close fuel' false x.2;
        Some (x.1 :: xs.1, xs.2)
  | _, _ => None
  end.

Definition read_snapshot (text : string) : option (ISnapshot string) :=
  let fuel := String.length text in
  s1 ← expect ("{" +:+ quoted "layers" +:+ ":[") text;
  ls ← read_items read_quoted "]"%char fuel true s1;
  s2 ← expect ("," +:+ quoted "layerIndex" +:+ ":{") ls.2;
  ix ← read_items read_index_entry "}"%char fuel true s2;
  s3 ← expect "}" ix.2;
  if String.eqb s3 "" then
    Some {| layers := ls.1; layerIndex := list_to_map ix.1 |}
  else None.

Definition JSON_parse (text : string) : Result (ISnapshot string) :=
  match read_snapshot text with
  | Some data => Ok data
  | None => Throw (Error "SyntaxError")
  end.

End InkExample.

(** ** A small registry to run the container code on

    [Foo] is the class of [app.ts]; [Bar] is the second class that the
    documentation of [initialDataObjects] names. *)

Module FluidExample.

Import FluidStatic.

(** The service [app.ts] initializes [Fluid] with. *)
Inductive Service := TinyliciousService.

Definition Foo : IFluidStaticDataObjectClass :=
  {| factory := {| type := "foo-dataobject" |} |}.

Definition Bar : IFluidStaticDataObjectClass :=
  {| factory := {| type := "bar-dataobject" |} |}.

Definition instance : FluidInstance Service :=
  {| containerService := TinyliciousService |}.

Definition started : World Service :=
  {| documents := ∅; globalFluid := Some instance |}.

Definition createConfig : ContainerCreateConfig :=
  {| config_base := {| dataObjects := [Foo; Bar] |};
     config_initialDataObjects := Some [("foo1", Foo); ("bar2", Bar)] |}.

(** A registry that names [Foo] twice. *)
Definition clashingConfig : ContainerCreateConfig :=
  {| config_base := {| dataObjects := [Foo; Bar; Foo] |};
     config_initialDataObjects := Some [("foo1", Foo)] |}.


(** An eager list over [Bar], which the registry does not hold. *)
Definition unregisteredEagerConfig : ContainerCreateConfig :=
  {| config_base := {| dataObjects := [Foo] |};
     config_initialDataObjects := Some [("bar2", Bar)] |}.

Definition registryEntry (d : IFluidStaticDataObjectClass)
    : NamedFluidDataStoreRegistryEntry :=
  (type (factory d), factory d).

(** A container over a registry that holds [Foo] only. *)
Definition fooContainer : FluidContainer :=
  {| container := "doc"; types := list_to_set ["foo-dataobject"];
     createNew := true |}.

End FluidExample.

(** ** Runs of the ink stream

    A client submits operations one after another, and the base class
    delivers sequenced messages one after another, each with its [local]
    flag. *)

Module InkSession.

Import InkStream.

#[global] Instance MessageType_eq_dec : EqDecision MessageType.
Proof. solve_decision. Defined.

Section Session.

Context {IInkLayer IDelta : Type}.
Variable apply : Snapshot IInkLayer -> IDelta -> Snapshot IInkLayer.

Definition submitOps (ops : list IDelta) (s : Stream IInkLayer IDelta)
    : Stream IInkLayer IDelta :=
  foldl (fun s' op => submitOp apply op s') s ops.

Definition deliver (msgs : list (ISequencedDocumentMessage IDelta * bool))
    (s : Stream IInkLayer IDelta) : Stream IInkLayer IDelta :=
  foldl (fun s' p => processContent apply p.1 p.2 s') s msgs.

(** The payloads of the delivered messages that are operations of other
    clients, in delivery order. *)
Definition remote_operations
    (msgs : list (ISequencedDocumentMessage IDelta * bool)) : list IDelta :=
  (fun p => contents p.1)
    <$> filter (fun p => type p.1 = Operation /\ p.2 = false) msgs.

End Session.

End InkSession.

(** ** Path parts and growth of the documents *)

Module FluidPaths.

Import FluidStatic.

(** Characters with a meaning of their own in a url. *)
Definition reserved (ch : ascii) : bool :=
  Ascii.eqb ch "/"%char || Ascii.eqb ch "?"%char
  || Ascii.eqb ch "%"%char || Ascii.eqb ch "#"%char.

Fixpoint plain (s : string) : bool :=
  match s with
  | EmptyString => true
  | String ch rest => negb (reserved ch) && plain rest
  end.

(** A type tag or an id that makes one part of a path as it stands: not
    empty, and free of reserved characters. *)
Definition segment (s : string) : Prop := s <> "" /\ plain s = true.

Section Growth.

Context {IGetContainerService : Type}.

(** From [w] to [w'] no document and no data object is lost, the data
    objects of a document keep their order, and the global instance is
    the same. *)
Definition grows (w w' : World IGetContainerService) : Prop :=
  globalFluid w' = globalFluid w /\
  forall (c : string) (runtime : IContainerRuntime),
    documents w !! c = Some runtime ->
    exists runtime',
      documents w' !! c = Some runtime' /\
      dataStores runtime `prefix_of` dataStores runtime'.

End Growth.

End FluidPaths.

(** ** Worlds and containers for the scenarios *)

Module FluidScenario.

Import FluidStatic FluidExample.

(** Nothing initialized, no document. *)
Definition blank : World Service := {| documents := ∅; globalFluid := None |}.

(** A world in which the document [doc] exists, as new. *)
Definition opened : World Service :=
  {| documents := {[ "doc" := newRuntime ]};
     globalFluid := Some instance |}.

Definition emptyConfig : ContainerCreateConfig :=
  {| config_base := {| dataObjects := [] |};
     config_initialDataObjects := None |}.

(** What [createContainer] gives for [createConfig]. *)
Definition created : Result FluidContainer * World Service :=
  FluidInstance_createContainer instance "doc" createConfig started.

Definition createdContainer : FluidContainer :=
  {| container := "doc";
     types := list_to_set (typeTags (registryEntry <$> [Foo; Bar]));
     createNew := true |}.

End FluidScenario.

(** * Base64 text round-trips *)

Section Base64Facts.

Import Base64.

Lemma digit_bits_digit (a b c d e f : bool) :
  digit_bits (digit a b c d e f) = Some [a; b; c; d; e; f].
Proof. destruct a, b, c, d, e, f; reflexivity. Qed.

Lemma digit_not_pad (a b c d e f : bool) :
  Ascii.eqb (digit a b c d e f) pad_char = false.
Proof. destruct a, b, c, d, e, f; reflexivity. Qed.

Lemma decode_bits_digit (a b c d e f : bool) (rest tail : string) :
  decode_bits (String (digit a b c d e f) rest +:+ tail)
  = [a; b; c; d; e; f] ++ decode_bits (rest +:+ tail).
Proof.
  simpl. rewrite digit_not_pad, digit_bits_digit. reflexivity.
Qed.

Lemma decode_bits_padding (n : nat) : decode_bits (padding n) = [].
Proof.
  unfold padding. destruct (n mod 4) as [|[|[|k]]]; reflexivity.
Qed.

(** Decoding the digits of a bit sequence gives the sequence back, with
    fewer than six zero bits after it. *)
Lemma decode_encode_bits_le (n : nat) : forall (bs : list bool) (tail : string),
  length bs <= n ->
  decode_bits tail = [] ->
  exists zs, length zs < 6 /\
    decode_bits (encode_bits bs +:+ tail) = bs ++ zs.
Proof.
  induction n as [|n IH]; intros bs tail Hlen Htail.
  - destruct bs; [|simpl in Hlen; lia].
    exists []. simpl. split; [lia|exact Htail].
  - destruct bs as [|a [|b [|c [|d [|e [|f rest]]]]]].
    + exists []. simpl. split; [lia|exact Htail].
    + exists (replicate 5 false). split; [simpl; lia|].
      simpl encode_bits. rewrite decode_bits_digit.
      change ("" +:+ tail) with tail. rewrite Htail. reflexivity.
    + exists (replicate 4 false). split; [simpl; lia|].
      simpl encode_bits. rewrite decode_bits_digit.
      change ("" +:+ tail) with tail. rewrite Htail. reflexivity.
    + exists (replicate 3 false). split; [simpl; lia|].
      simpl encode_bits. rewrite decode_bits_digit.
      change ("" +:+ tail) with tail. rewrite Htail. reflexivity.
    + exists (replicate 2 false). split; [simpl; lia|].
      simpl encode_bits. rewrite decode_bits_digit.
      change ("" +:+ tail) with tail. rewrite Htail. reflexivity.
    + exists (replicate 1 false). split; [simpl; lia|].
      simpl encode_bits. rewrite decode_bits_digit.
      change ("" +:+ tail) with tail. rewrite Htail. reflexivity.
    + destruct (IH rest tail) as (zs & Hzs & Hdec);
        [simpl in Hlen; lia|exact Htail|].
      exists zs. split; [exact Hzs|].
      simpl encode_bits. rewrite decode_bits_digit, Hdec. reflexivity.
Qed.

Lemma bytes_of_bits_short (zs : list bool) :
  length zs < 8 -> bytes_of_bits zs = EmptyString.
Proof.
  intros Hlen.
  destruct zs as [|? [|? [|? [|? [|? [|? [|? [|? ?]]]]]]]]; try reflexivity.
  simpl in Hlen. lia.
Qed.

Lemma bytes_of_bits_of_bytes (buf : Buffer) (zs : list bool) :
  length zs < 8 -> bytes_of_bits (bits_of_bytes buf ++ zs) = buf.
Proof.
  intros Hlen. induction buf as [|ch rest IH].
  - simpl. apply bytes_of_bits_short, Hlen.
  - destruct ch as [b0 b1 b2 b3 b4 b5 b6 b7]. simpl. rewrite IH. reflexivity.
Qed.

(** Reading back the base64 text of a buffer gives the buffer. *)
Lemma decode_encode (buf : Buffer) : decode (encode buf) = buf.
Proof.
  unfold decode, encode.
  destruct (decode_encode_bits_le (length (bits_of_bytes buf))
              (bits_of_bytes buf)
              (padding (String.length (encode_bits (bits_of_bytes buf))))
              (le_n _) (decode_bits_padding _)) as (zs & Hzs & Hdec).
  rewrite Hdec. apply bytes_of_bits_of_bytes. lia.
Qed.

(** The base64 text of a buffer that holds a byte is not empty. *)
Lemma encode_nonempty (buf : Buffer) :
  buf <> EmptyString -> encode buf <> EmptyString.
Proof.
  intros Hne. destruct buf as [|ch rest]; [contradiction|].
  destruct ch as [b0 b1 b2 b3 b4 b5 b6 b7].
  unfold encode. simpl. discriminate.
Qed.

End Base64Facts.

(** * Properties of the ink stream *)

Section InkStreamFacts.

Import InkStream.

Context {IInkLayer IDelta : Type}.
Variable apply : Snapshot IInkLayer -> IDelta -> Snapshot IInkLayer.

Implicit Types (s : Stream IInkLayer IDelta) (op : IDelta).
Implicit Types (m : ISequencedDocumentMessage IDelta).

Lemma MessageType_eqb_eq a b : MessageType_eqb a b = true <-> a = b.
Proof. destruct a, b; simpl; split; intros H; congruence. Qed.

Lemma MessageType_eqb_neq a b : a <> b -> MessageType_eqb a b = false.
Proof.
  intros Hne. destruct (MessageType_eqb a b) eqn:E; [|reflexivity].
  apply MessageType_eqb_eq in E. contradiction.
Qed.

(** What [processContent] does with a remote operation, for comparison
    with the two cases in which it does nothing. *)
Lemma processContent_remote_operation m s :
  type m = Operation ->
  processContent apply m false s
  = set_inkSnapshot s (apply (inkSnapshot s) (contents m)).
Proof. intros Ht. unfold processContent. rewrite Ht. reflexivity. Qed.

(** C2.  A message delivered to [processContent] with [local = true], the
    echo of an operation this client has already applied, leaves the
    stream as it is; in particular the committed ink state is not mutated
    a second time. *)
Theorem processContent_local_echo m s :
  processContent apply m true s = s.
Proof.
  unfold processContent. rewrite andb_false_r. reflexivity.
Qed.

(** C9.  A remote message ([local = false]) whose type is not [Operation]
    leaves the stream, and so the committed ink state, unchanged. *)
Theorem processContent_not_operation m s :
  type m <> Operation ->
  processContent apply m false s = s.
Proof.
  intros Hne. unfold processContent.
  rewrite (MessageType_eqb_neq _ _ Hne). reflexivity.
Qed.

Lemma submitLocalMessage_inkSnapshot op s :
  inkSnapshot (submitLocalMessage op s) = inkSnapshot s.
Proof. reflexivity. Qed.

Lemma onConnectContent_app (pending1 pending2 : list IDelta) s :
  onConnectContent (pending1 ++ pending2) s
  = onConnectContent pending2 (onConnectContent pending1 s).
Proof.
  revert s. induction pending1 as [|message rest IH]; intros s; simpl.
  - reflexivity.
  - apply IH.
Qed.

(** C3.  On reconnect [onConnectContent] hands the pending operations to
    [submitLocalMessage] one by one: what goes out is exactly the pending
    sequence, in its order, each operation once, after whatever had gone
    out before; the committed ink state is the one from before. *)
Theorem onConnectContent_resubmits (pending : list IDelta) s :
  outbound (onConnectContent pending s) = outbound s ++ pending /\
  inkSnapshot (onConnectContent pending s) = inkSnapshot s.
Proof.
  revert s. induction pending as [|message rest IH]; intros s; simpl.
  - rewrite app_nil_r. split; reflexivity.
  - destruct (IH (submitLocalMessage message s)) as [Hout Hink].
    rewrite Hout, Hink. simpl. rewrite <- app_assoc. split; reflexivity.
Qed.

(** C4.  [submitOp op] appends [op] to the pending local operations,
    applies it to the committed ink state at once, so that the layers the
    client reads already show the edit, and forwards [op] for
    transmission. *)
Theorem submitOp_optimistic op s :
  pendingLocalOps (submitOp apply op s) = pendingLocalOps s ++ [op] /\
  inkSnapshot (submitOp apply op s) = apply (inkSnapshot s) op /\
  getLayers (submitOp apply op s) = layers (apply (inkSnapshot s) op) /\
  outbound (submitOp apply op s) = outbound s ++ [op].
Proof. repeat split; reflexivity. Qed.

Lemma array_get_nat {A : Type} (a : list A) (i : nat) :
  array_get a (Some (Z.of_nat i)) = a !! i.
Proof.
  unfold array_get.
  destruct (Z.ltb_spec (Z.of_nat i) 0) as [Hneg|_]; [lia|].
  rewrite Nat2Z.id. reflexivity.
Qed.

Lemma array_get_negative {A : Type} (a : list A) (z : Z) :
  (z < 0)%Z -> array_get a (Some z) = None.
Proof.
  intros Hz. unfold array_get.
  destruct (Z.ltb_spec z 0) as [_|Hge]; [reflexivity|lia].
Qed.

(** C10.  [getLayer key] throws nothing: for a key that is not in the
    layer index the result is [undefined]; for a key the index sends to
    position [i] it is the entry of the layer list at [i] (none when the
    list is shorter, or when the index holds a negative number). *)
Theorem getLayer_lookup (key : string) s :
  (layerIndex (inkSnapshot s) !! key = None -> getLayer key s = None) /\
  (forall i : nat, layerIndex (inkSnapshot s) !! key = Some (Z.of_nat i) ->
     getLayer key s = layers (inkSnapshot s) !! i) /\
  (forall z : Z, layerIndex (inkSnapshot s) !! key = Some z -> (z < 0)%Z ->
     getLayer key s = None).
Proof.
  unfold getLayer. repeat split.
  - intros Hk. rewrite Hk. reflexivity.
  - intros i Hk. rewrite Hk. apply array_get_nat.
  - intros z Hk Hz. rewrite Hk. apply array_get_negative, Hz.
Qed.

Variable Clone : ISnapshot IInkLayer -> Snapshot IInkLayer.
Variable JSON_stringify : Snapshot IInkLayer -> string.
Variable JSON_parse : string -> Result (ISnapshot IInkLayer).

(** The tree of [snapshotContent] is one blob, named [header], declared as
    utf-8 text. *)
Lemma snapshotContent_header s :
  exists blob,
    Storage.entries (snapshotContent JSON_stringify s)
    = [ {| Storage.mode := Storage.File; Storage.path := "header";
           Storage.entry_type := "Blob"; Storage.value := blob |} ] /\
    Storage.encoding blob = "utf-8" /\
    Storage.contents blob = JSON_stringify (inkSnapshot s).
Proof. eexists. repeat split. Qed.


Lemma truthy_nonempty (text : string) : text <> "" -> truthy text = true.
Proof.
  intros Hne. unfold truthy.
  destruct (String.eqb_spec text ""); [contradiction|reflexivity].
Qed.

(** Without a stored header the stream starts from the empty snapshot. *)
Lemma loadContent_no_header (target : Stream IInkLayer IDelta)
    (minimumSequenceNumber : Z) (headerOrigin : string)
    (storage : Storage.IObjectStorageService) :
  storage !! snapshotFileName = None ->
  loadContent Clone JSON_parse minimumSequenceNumber headerOrigin storage target
  = Ok (initialize Clone emptySnapshot target).
Proof.
  intros Hnone. unfold loadContent, Storage.storage_read.
  rewrite Hnone. reflexivity.
Qed.


End InkStreamFacts.

Example drawn_layers :
  InkStream.getLayers InkExample.drawn = ["a"; "b"] /\
  InkStream.getLayer "b" InkExample.drawn = Some "b" /\
  InkStream.getLayer "toString" InkExample.drawn = None /\
  InkStream.outbound InkExample.drawn = ["a"; "b"].
Proof. repeat split; reflexivity. Qed.

(** The scenario of the echo: an operation submitted locally shows at
    once, and its echo under sequence number 5 changes nothing, while the
    same operation from another client is applied. *)
Example echo_after_submit :
  let s1 := InkStream.submitOp InkExample.apply "a" InkExample.fresh in
  InkStream.getLayers s1 = ["a"] /\
  InkStream.processContent InkExample.apply
    (InkExample.message InkStream.Operation "a") true s1 = s1 /\
  InkStream.getLayers
    (InkStream.processContent InkExample.apply
       (InkExample.message InkStream.Operation "c") false s1) = ["a"; "c"].
Proof. repeat split; reflexivity. Qed.

Lemma processContent_not_operation_witness :
  InkStream.processContent InkExample.apply
    (InkExample.message InkStream.Signal "c") false InkExample.drawn
  = InkExample.drawn.
Proof.
  apply (processContent_not_operation InkExample.apply
           (InkExample.message InkStream.Signal "c") InkExample.drawn).
  simpl. discriminate.
Defined.

Lemma getLayer_lookup_witness :
  InkStream.getLayer "zz" InkExample.drawn = None /\
  InkStream.getLayer "b" InkExample.drawn = Some "b".
Proof.
  split.
  - apply (proj1 (getLayer_lookup "zz" InkExample.drawn)). reflexivity.
  - apply (proj1 (proj2 (getLayer_lookup "b" InkExample.drawn)) 1%nat).
    reflexivity.
Defined.

(** * Properties of the container code *)

Section FluidStaticFacts.

Import FluidStatic.

Context {IGetContainerService : Type}.

Implicit Types (w : World IGetContainerService).
Implicit Types (entries : list NamedFluidDataStoreRegistryEntry).
Implicit Types (acc : gset string).

Lemma shares_typeTag_not_NoDup entries :
  shares_typeTag entries -> ~ NoDup (typeTags entries).
Proof.
  intros (i & j & e1 & e2 & Hij & Hi & Hj & Heq) Hnd.
  apply Hij. apply (NoDup_lookup (typeTags entries) i j e1.1 Hnd).
  - unfold typeTags. rewrite list_lookup_fmap, Hi. reflexivity.
  - unfold typeTags. rewrite list_lookup_fmap, Hj. simpl. congruence.
Qed.

Lemma NoDup_not_shares_typeTag entries :
  NoDup (typeTags entries) -> ~ shares_typeTag entries.
Proof. intros Hnd Hsh. exact (shares_typeTag_not_NoDup _ Hsh Hnd). Qed.

(** The loop succeeds on tags that are new to the set and pairwise
    distinct, and then has added them all. *)
Lemma FluidContainer_forEach_Ok entries acc :
  NoDup (typeTags entries) ->
  (forall t, t ∈ typeTags entries -> t ∉ acc) ->
  FluidContainer_forEach entries acc = Ok (acc ∪ list_to_set (typeTags entries)).
Proof.
  revert acc. induction entries as [|[t f] rest IH]; intros acc Hnd Hfresh; simpl.
  - f_equal. set_solver.
  - apply NoDup_cons in Hnd as [Hnotin Hnd].
    rewrite bool_decide_eq_false_2 by (apply Hfresh; simpl; left).
    rewrite IH.
    + f_equal. set_solver.
    + exact Hnd.
    + intros t' Hin. unfold typeTags in *. simpl in Hfresh.
      assert (t' <> t) by (intros ->; contradiction).
      assert (t' ∉ acc) by (apply Hfresh; right; exact Hin).
      set_solver.
Qed.

(** Conversely, a loop that succeeds has met no tag twice. *)
Lemma FluidContainer_forEach_Ok_inv entries acc types :
  FluidContainer_forEach entries acc = Ok types ->
  NoDup (typeTags entries) /\ (forall t, t ∈ typeTags entries -> t ∉ acc).
Proof.
  revert acc. induction entries as [|[t f] rest IH]; intros acc Hok; simpl in *.
  - split; [constructor|]. intros t Hin. inversion Hin.
  - destruct (bool_decide (t ∈ acc)) eqn:Hdec; [discriminate|].
    apply bool_decide_eq_false in Hdec.
    destruct (IH _ Hok) as [Hnd Hfresh]. split.
    + constructor; [|exact Hnd].
      intros Hin. apply (Hfresh t Hin). set_solver.
    + intros t' Hin. apply elem_of_cons in Hin as [->|Hin]; [exact Hdec|].
      specialize (Hfresh t' Hin). set_solver.
Qed.

(** The constructor runs to its end: it returns or throws. *)
Lemma FluidContainer_forEach_settles entries acc :
  FluidContainer_forEach entries acc <> Pending.
Proof.
  revert acc. induction entries as [|[t f] rest IH]; intros acc; simpl.
  - discriminate.
  - destruct (bool_decide (t ∈ acc)); [discriminate|apply IH].
Qed.

Lemma new_FluidContainer_Ok_types (c : string) entries (b : bool) this :
  new_FluidContainer c entries b = Ok this ->
  types this = list_to_set (typeTags entries) /\ NoDup (typeTags entries).
Proof.
  unfold new_FluidContainer. intros Hnew.
  destruct (FluidContainer_forEach entries ∅) as [tys|e|] eqn:Hloop;
    simpl in Hnew; try discriminate.
  injection Hnew as <-. simpl.
  destruct (FluidContainer_forEach_Ok_inv _ _ _ Hloop) as [Hnd Hfresh].
  split; [|exact Hnd].
  rewrite (FluidContainer_forEach_Ok _ _ Hnd Hfresh) in Hloop.
  injection Hloop as <-. set_solver.
Qed.

Lemma new_FluidContainer_NoDup_cases (c : string) entries (b : bool) :
  (~ NoDup (typeTags entries) ->
     exists e, new_FluidContainer c entries b = Throw e) /\
  (NoDup (typeTags entries) ->
     new_FluidContainer c entries b
     = Ok {| container := c; types := list_to_set (typeTags entries);
             createNew := b |}).
Proof.
  split.
  - intros Hdup.
    destruct (new_FluidContainer c entries b) as [this|e|] eqn:Hnew; [|eauto|].
    + apply new_FluidContainer_Ok_types in Hnew as [_ Hnd]. contradiction.
    + exfalso. unfold new_FluidContainer in Hnew.
      pose proof (FluidContainer_forEach_settles entries ∅) as Hs.
      destruct (FluidContainer_forEach entries ∅); simpl in Hnew;
        try discriminate. contradiction.
  - intros Hnd. unfold new_FluidContainer.
    rewrite (FluidContainer_forEach_Ok entries ∅ Hnd) by set_solver.
    simpl. do 2 f_equal. set_solver.
Qed.

(** A type that is not in the set a container was built with is refused
    before the container is asked for anything. *)
Lemma createDataObject_not_in_types (this : FluidContainer)
    (dataObjectClass : IFluidStaticDataObjectClass) (i : string) w :
  type (factory dataObjectClass) ∉ types this ->
  FluidContainer_createDataObject this dataObjectClass i w
  = (Throw (UnregisteredTypeError (type (factory dataObjectClass))), w).
Proof.
  intros Hnot. unfold FluidContainer_createDataObject.
  rewrite bool_decide_eq_false_2 by exact Hnot. reflexivity.
Qed.

(** C6.  On a container constructed over a registry, [createDataObject]
    for a class whose type tag is not in that registry throws the error
    for an unregistered type; the throw comes before the create request,
    so the documents, and with them every instance, are as before. *)
Theorem createDataObject_unregistered (c : string) entries (b : bool)
    (this : FluidContainer) (dataObjectClass : IFluidStaticDataObjectClass)
    (i : string) w :
  new_FluidContainer c entries b = Ok this ->
  type (factory dataObjectClass) ∉ typeTags entries ->
  FluidContainer_createDataObject this dataObjectClass i w
  = (Throw (UnregisteredTypeError (type (factory dataObjectClass))), w).
Proof.
  intros Hnew Hnot.
  apply new_FluidContainer_Ok_types in Hnew as [Htypes _].
  apply createDataObject_not_in_types. rewrite Htypes. set_solver.
Qed.

Lemma hasDataStore_false (i : string) (runtime : IContainerRuntime) :
  hasDataStore i runtime = false <->
  Forall (fun d => id d <> i) (dataStores runtime).
Proof.
  unfold hasDataStore. induction (dataStores runtime) as [|d rest IH]; simpl.
  - split; [constructor|reflexivity].
  - rewrite orb_false_iff, IH, Forall_cons.
    destruct (String.eqb_spec (id d) i); split; intros [H1 H2];
      (split; [|exact H2]); congruence.
Qed.

Lemma createRootDataStore_Ok (registry : gset string) (pkg i : string)
    (runtime : IContainerRuntime) :
  hasDataStore i runtime = false ->
  pkg ∈ registry ->
  createRootDataStore registry pkg i runtime
  = Ok {| dataStores := dataStores runtime ++ [ {| id := i; pkg := pkg |} ] |}.
Proof.
  intros Hfree Hreg. unfold createRootDataStore.
  rewrite Hfree, bool_decide_eq_true_2 by exact Hreg. reflexivity.
Qed.

(** A creation that succeeds has added the object at the end. *)
Lemma createRootDataStore_Ok_inv (registry : gset string) (pkg i : string)
    (runtime runtime' : IContainerRuntime) :
  createRootDataStore registry pkg i runtime = Ok runtime' ->
  hasDataStore i runtime = false /\
  dataStores runtime' = dataStores runtime ++ [ {| id := i; pkg := pkg |} ].
Proof.
  unfold createRootDataStore.
  destruct (hasDataStore i runtime); [discriminate|].
  destruct (bool_decide (pkg ∈ registry) || String.eqb pkg schedulerId);
    [|discriminate].
  intros Hok. injection Hok as <-. split; reflexivity.
Qed.

(** The hook on an eager list with distinct ids that are free in the
    runtime, over classes of the registry: every entry is created, in
    order, after the data objects the runtime has. *)
Lemma createInitialDataObjects_Ok (registry : gset string)
    (l : list (string * IFluidStaticDataObjectClass)) (runtime : IContainerRuntime) :
  NoDup l.*1 ->
  (forall i d, (i, d) ∈ l ->
     hasDataStore i runtime = false /\ type (factory d) ∈ registry) ->
  createInitialDataObjects registry l runtime
  = Ok {| dataStores := dataStores runtime ++ eager_objects l |}.
Proof.
  revert runtime. induction l as [|[i d] rest IH]; intros runtime Hnd Hok; simpl.
  - rewrite app_nil_r. destruct runtime; reflexivity.
  - apply NoDup_cons in Hnd as [Hnotin Hnd].
    destruct (Hok i d) as [Hfree Hreg]; [left|].
    rewrite (createRootDataStore_Ok _ _ _ _ Hfree Hreg). simpl.
    rewrite IH.
    + simpl. rewrite <- app_assoc. reflexivity.
    + exact Hnd.
    + intros i' d' Hin. destruct (Hok i' d') as [Hfree' Hreg']; [right; exact Hin|].
      split; [|exact Hreg'].
      apply hasDataStore_false. simpl. apply Forall_app. split.
      * apply hasDataStore_false, Hfree'.
      * constructor; [|constructor]. simpl. intros ->. apply Hnotin.
        apply list_elem_of_fmap. exists (i', d'). split; [reflexivity|exact Hin].
Qed.

Lemma createInitialDataObjects_new (registry : gset string)
    (l : list (string * IFluidStaticDataObjectClass)) :
  eager_list_ok registry l ->
  createInitialDataObjects registry l newRuntime
  = Ok {| dataStores := dataStores newRuntime ++ eager_objects l |}.
Proof.
  intros [Hnd Hok]. apply createInitialDataObjects_Ok; [exact Hnd|].
  intros i d Hin.
  destruct (proj1 (Forall_forall _ _) Hok (i, d) Hin) as [Hid Hreg].
  split; [|exact Hreg]. apply hasDataStore_false. constructor; [|constructor].
  simpl in *. congruence.
Qed.

(** The factory that [FluidInstance.getContainer] builds has an empty
    eager list: setting up a runtime with it creates nothing, whether or
    not the hook runs. *)
Lemma instantiateRuntime_load_factory entries (existing : bool)
    (runtime : IContainerRuntime) :
  instantiateRuntime (new_DOProviderContainerRuntimeFactory entries None)
    existing runtime = Ok runtime.
Proof. destruct existing; reflexivity. Qed.

Lemma set_documents_same w :
  set_documents w (documents w) = w.
Proof. destruct w; reflexivity. Qed.

Lemma getRegistryEntries_Ok (dataObjects : list IFluidStaticDataObjectClass) :
  dataObjects <> [] ->
  FluidInstance_getRegistryEntries dataObjects
  = Ok ((fun d => (type (factory d), factory d)) <$> dataObjects).
Proof.
  intros Hne. unfold FluidInstance_getRegistryEntries.
  destruct dataObjects; [contradiction|reflexivity].
Qed.

Lemma typeTags_registryEntries (dataObjects : list IFluidStaticDataObjectClass) :
  typeTags ((fun d => (type (factory d), factory d)) <$> dataObjects)
  = (fun d => type (factory d)) <$> dataObjects.
Proof.
  unfold typeTags. rewrite <- list_fmap_compose. reflexivity.
Qed.

Lemma registryEntries_of_classes (classes : list IFluidStaticDataObjectClass) :
  (fun d => (type (factory d), factory d)) <$> classes
  = dataObjectClassToRegistryEntry <$> classes.
Proof. reflexivity. Qed.


(** Loading an existing document with a well-formed registry returns its
    container and changes nothing. *)
Lemma FluidInstance_getContainer_existing (this : FluidInstance IGetContainerService)
    (i : string) (config : ContainerConfig) w (stored : IContainerRuntime) :
  documents w !! i = Some stored ->
  dataObjects config <> [] ->
  NoDup ((fun d => type (factory d)) <$> dataObjects config) ->
  exists fc, FluidInstance_getContainer this i config w = (Ok fc, w)
             /\ container fc = i /\ createNew fc = false.
Proof.
  intros Hdoc Hne Hnd. unfold FluidInstance_getContainer.
  rewrite (getRegistryEntries_Ok _ Hne). unfold getContainer.
  rewrite Hdoc, instantiateRuntime_load_factory.
  rewrite insert_id by exact Hdoc. rewrite set_documents_same.
  rewrite <- typeTags_registryEntries in Hnd.
  rewrite (proj2 (new_FluidContainer_NoDup_cases i _ false) Hnd).
  eexists. repeat split; reflexivity.
Qed.







(** C8.  With a global instance in place, [Fluid.init] throws and the
    world, the instance included, stays as it was. *)
Theorem Fluid_init_twice (getContainerService : option IGetContainerService)
    w (instance : FluidInstance IGetContainerService) :
  globalFluid w = Some instance ->
  Fluid_init getContainerService w
  = (Throw (Error "Fluid cannot be initialized more than once"), w).
Proof.
  intros Hglobal. unfold Fluid_init. rewrite Hglobal. reflexivity.
Qed.

(** The first [Fluid.init] with a service puts an instance in place. *)
Lemma Fluid_init_first (service : IGetContainerService) w :
  globalFluid w = None ->
  Fluid_init (Some service) w
  = (Ok tt, set_globalFluid w (Some {| containerService := service |})).
Proof.
  intros Hglobal. unfold Fluid_init. rewrite Hglobal. reflexivity.
Qed.

End FluidStaticFacts.


(** The stored header of the example, as [read] hands it out. *)
Example drawn_header :
  Storage.storage_read
    (Storage.storage_write
       (InkStream.snapshotContent InkExample.JSON_stringify InkExample.drawn) ∅)
    "header"
  = Some "eyJsYXllcnMiOlsiYSIsImIiXSwibGF5ZXJJbmRleCI6eyJhIjowLCJiIjoxfX0=".
Proof. vm_compute. reflexivity. Qed.



Lemma createDataObject_unregistered_witness :
  FluidStatic.FluidContainer_createDataObject FluidExample.fooContainer
    FluidExample.Bar "dice" FluidExample.started
  = (Throw (FluidStatic.UnregisteredTypeError "bar-dataobject"),
     FluidExample.started).
Proof.
  apply (createDataObject_unregistered "doc"
           (FluidExample.registryEntry <$> [FluidExample.Foo]) true
           FluidExample.fooContainer FluidExample.Bar "dice"
           FluidExample.started).
  - vm_compute. reflexivity.
  - apply (bool_decide_unpack _). vm_compute. exact I.
Defined.



(** An eager list over a class that the registry does not hold is
    refused by the runtime as well. *)
Example eager_list_unregistered_rejected :
  FluidStatic.FluidInstance_createContainer FluidExample.instance "doc"
    FluidExample.unregisteredEagerConfig FluidExample.started
  = (Throw (FluidStatic.UnregisteredPackageError "bar-dataobject"),
     FluidExample.started).
Proof. vm_compute. reflexivity. Qed.

Lemma Fluid_init_twice_witness :
  FluidStatic.Fluid_init (Some FluidExample.TinyliciousService)
    FluidExample.started
  = (Throw (Error "Fluid cannot be initialized more than once"),
     FluidExample.started).
Proof.
  apply (Fluid_init_twice (Some FluidExample.TinyliciousService)
           FluidExample.started FluidExample.instance).
  reflexivity.
Defined.

(** The scenario of [app.ts], with the registry of the documentation: the
    container comes with its two eager objects, and a third object is
    created on demand; asking for it before that does not settle. *)
Example create_then_use :
  let '(r, w1) :=
    FluidStatic.Fluid_createContainer "doc" FluidExample.createConfig
      FluidExample.started in
  match r with
  | Ok fc =>
      fst (FluidStatic.FluidContainer_getDataObject fc "foo1" w1)
      = Ok {| FluidStatic.id := "foo1"; FluidStatic.pkg := "foo-dataobject" |} /\
      fst (FluidStatic.FluidContainer_getDataObject fc "dice" w1) = Pending /\
      let '(r2, w2) :=
        FluidStatic.FluidContainer_createDataObject fc FluidExample.Foo
          "dice" w1 in
      r2 = Ok {| FluidStatic.id := "dice"; FluidStatic.pkg := "foo-dataobject" |} /\
      fst (FluidStatic.FluidContainer_getDataObject fc "dice" w2) = r2
  | _ => False
  end.
Proof. vm_compute. repeat split. Qed.

(** * Further properties of the ink stream *)

Section InkStreamRuns.

Import InkStream InkSession.

Context {IInkLayer IDelta : Type}.
Variable apply : Snapshot IInkLayer -> IDelta -> Snapshot IInkLayer.
Variable Clone : ISnapshot IInkLayer -> Snapshot IInkLayer.
Variable JSON_stringify : Snapshot IInkLayer -> string.
Variable JSON_parse : string -> Result (ISnapshot IInkLayer).

Implicit Types (s target : Stream IInkLayer IDelta) (op : IDelta).
Implicit Types (m : ISequencedDocumentMessage IDelta).
Implicit Types (storage : Storage.IObjectStorageService).

(** X1.  A storage without a header, or with an empty header blob, loads
    as a stream that was initialized locally: the empty base64 text counts
    as no header, and [JSON.parse] is not called on it. *)
Theorem loadContent_without_header (minimumSequenceNumber : Z)
    (headerOrigin : string) storage target :
  storage !! snapshotFileName = None \/ storage !! snapshotFileName = Some "" ->
  loadContent Clone JSON_parse minimumSequenceNumber headerOrigin storage target
  = Ok (initializeContent Clone target).
Proof.
  intros [Hnone|Hempty]; unfold loadContent, Storage.storage_read.
  - rewrite Hnone. reflexivity.
  - rewrite Hempty. reflexivity.
Qed.

(** With a header that holds bytes, [loadContent] hands exactly those
    bytes to [JSON.parse]: the base64 text in between changes nothing. *)
Lemma loadContent_stored_header (minimumSequenceNumber : Z)
    (headerOrigin : string) storage target (bytes : string) :
  storage !! snapshotFileName = Some bytes ->
  bytes <> "" ->
  loadContent Clone JSON_parse minimumSequenceNumber headerOrigin storage target
  = (data ← JSON_parse bytes; Ok (initialize Clone data target)).
Proof.
  intros Hheader Hne. unfold loadContent, Storage.storage_read.
  rewrite Hheader. simpl.
  rewrite truthy_nonempty by (apply encode_nonempty, Hne).
  rewrite decode_encode. reflexivity.
Qed.

(** X2.  When the stored header parses, the loaded stream has the clone of
    the parsed snapshot as its ink state, and the pending and outgoing
    operations it had before. *)
Theorem loadContent_parsed_header (minimumSequenceNumber : Z)
    (headerOrigin : string) storage target (bytes : string)
    (data : ISnapshot IInkLayer) :
  storage !! snapshotFileName = Some bytes ->
  bytes <> "" ->
  JSON_parse bytes = Ok data ->
  exists s',
    loadContent Clone JSON_parse minimumSequenceNumber headerOrigin storage target
    = Ok s' /\
    inkSnapshot s' = Clone data /\
    pendingLocalOps s' = pendingLocalOps target /\
    outbound s' = outbound target.
Proof.
  intros Hheader Hne Hparse.
  rewrite (loadContent_stored_header _ _ _ _ _ Hheader Hne), Hparse.
  eexists. split; [reflexivity|]. repeat split.
Qed.

(** X3.  When [JSON.parse] rejects the stored header, [loadContent] throws
    that error: no stream results, and the empty snapshot is not used in
    its place. *)
Theorem loadContent_corrupt_header (minimumSequenceNumber : Z)
    (headerOrigin : string) storage target (bytes : string) (e : JsError) :
  storage !! snapshotFileName = Some bytes ->
  bytes <> "" ->
  JSON_parse bytes = Throw e ->
  loadContent Clone JSON_parse minimumSequenceNumber headerOrigin storage target
  = Throw e.
Proof.
  intros Hheader Hne Hparse.
  rewrite (loadContent_stored_header _ _ _ _ _ Hheader Hne), Hparse.
  reflexivity.
Qed.

(** X4.  [loadContent] reads the header and nothing else: two storages
    with the same header load alike, whatever else they hold and whatever
    [minimumSequenceNumber] and [headerOrigin] are passed. *)
Theorem loadContent_reads_header_only (msn1 msn2 : Z) (origin1 origin2 : string)
    (storage1 storage2 : Storage.IObjectStorageService) target :
  storage1 !! snapshotFileName = storage2 !! snapshotFileName ->
  loadContent Clone JSON_parse msn1 origin1 storage1 target
  = loadContent Clone JSON_parse msn2 origin2 storage2 target.
Proof.
  intros Hsame. unfold loadContent, Storage.storage_read.
  rewrite Hsame. reflexivity.
Qed.

Lemma submitOps_snoc (ops : list IDelta) op s :
  submitOps apply (ops ++ [op]) s = submitOp apply op (submitOps apply ops s).
Proof. unfold submitOps. rewrite foldl_app. reflexivity. Qed.

Lemma submitOps_inkSnapshot (ops : list IDelta) s :
  inkSnapshot (submitOps apply ops s) = foldl apply (inkSnapshot s) ops.
Proof.
  revert s. induction ops as [|op rest IH]; intros s; [reflexivity|].
  simpl. rewrite IH. reflexivity.
Qed.

Lemma submitOps_queues (ops : list IDelta) s :
  pendingLocalOps (submitOps apply ops s) = pendingLocalOps s ++ ops /\
  outbound (submitOps apply ops s) = outbound s ++ ops.
Proof.
  revert s. induction ops as [|op rest IH]; intros s; simpl.
  - rewrite !app_nil_r. split; reflexivity.
  - destruct (IH (submitOp apply op s)) as [Hp Ho]. rewrite Hp, Ho. simpl.
    rewrite <- !app_assoc. split; reflexivity.
Qed.

Lemma deliver_inkSnapshot (msgs : list (ISequencedDocumentMessage IDelta * bool)) s :
  inkSnapshot (deliver apply msgs s)
  = foldl apply (inkSnapshot s) (remote_operations msgs).
Proof.
  revert s. induction msgs as [|[m local] rest IH]; intros s; [reflexivity|].
  simpl. rewrite IH. unfold remote_operations. rewrite filter_cons. simpl.
  destruct (decide (type m = Operation /\ local = false)) as [[Ht ->]|Hn].
  - unfold processContent. rewrite Ht. reflexivity.
  - replace (processContent apply m local s) with s; [reflexivity|].
    unfold processContent. destruct local.
    + rewrite andb_false_r. reflexivity.
    + destruct (type m) eqn:Ht; try reflexivity.
      exfalso. apply Hn. split; reflexivity.
Qed.

Lemma deliver_queues (msgs : list (ISequencedDocumentMessage IDelta * bool)) s :
  pendingLocalOps (deliver apply msgs s) = pendingLocalOps s /\
  outbound (deliver apply msgs s) = outbound s.
Proof.
  revert s. induction msgs as [|[m local] rest IH]; intros s; [split; reflexivity|].
  simpl. destruct (IH (processContent apply m local s)) as [Hp Ho].
  rewrite Hp, Ho. unfold processContent.
  destruct (MessageType_eqb (type m) Operation && negb local);
    split; reflexivity.
Qed.

(** X5.  Operations submitted one after another go out in that order, wait
    as pending in that order, and have all been applied to the ink state,
    the first one first. *)
Theorem submitOps_in_order (ops : list IDelta) s :
  outbound (submitOps apply ops s) = outbound s ++ ops /\
  pendingLocalOps (submitOps apply ops s) = pendingLocalOps s ++ ops /\
  getLayers (submitOps apply ops s) = layers (foldl apply (inkSnapshot s) ops).
Proof.
  destruct (submitOps_queues ops s) as [Hp Ho].
  split; [exact Ho|]. split; [exact Hp|].
  unfold getLayers. rewrite submitOps_inkSnapshot. reflexivity.
Qed.

(** X6.  Of a run of delivered messages only the operations of other
    clients reach the ink state, in delivery order; echoes and messages of
    other types are passed over, and delivery never queues or sends
    anything. *)
Theorem deliver_remote_operations
    (msgs : list (ISequencedDocumentMessage IDelta * bool)) s :
  inkSnapshot (deliver apply msgs s)
  = foldl apply (inkSnapshot s) (remote_operations msgs) /\
  pendingLocalOps (deliver apply msgs s) = pendingLocalOps s /\
  outbound (deliver apply msgs s) = outbound s.
Proof.
  split; [apply deliver_inkSnapshot|apply deliver_queues].
Qed.

Lemma remote_operations_echoes (ms : list (ISequencedDocumentMessage IDelta)) :
  remote_operations ((fun m => (m, true)) <$> ms) = [].
Proof.
  induction ms as [|m rest IH]; [reflexivity|].
  unfold remote_operations in *. simpl. rewrite filter_cons. simpl.
  case_decide as Hd; [destruct Hd; discriminate|exact IH].
Qed.

Lemma remote_operations_remote (ms : list (ISequencedDocumentMessage IDelta)) :
  Forall (fun m => type m = Operation) ms ->
  remote_operations ((fun m => (m, false)) <$> ms) = contents <$> ms.
Proof.
  induction 1 as [|m rest Hm _ IH]; [reflexivity|].
  unfold remote_operations in *. simpl. rewrite filter_cons. simpl.
  case_decide as Hd.
  - rewrite !fmap_cons. f_equal. exact IH.
  - exfalso. apply Hd. split; [exact Hm|reflexivity].
Qed.

(** X7.  A client that submits operations and then receives their echoes
    ends with the ink state of a client that started from the same ink
    state and received the same operations from the ordering service:
    each operation is applied once on either side, in the same order. *)
Theorem echoed_submissions_agree_with_remote
    (ms : list (ISequencedDocumentMessage IDelta)) s s' :
  Forall (fun m => type m = Operation) ms ->
  inkSnapshot s = inkSnapshot s' ->
  inkSnapshot
    (deliver apply ((fun m => (m, true)) <$> ms)
       (submitOps apply (contents <$> ms) s))
  = inkSnapshot (deliver apply ((fun m => (m, false)) <$> ms) s').
Proof.
  intros Hops Hsame.
  rewrite !deliver_inkSnapshot, remote_operations_echoes.
  rewrite (remote_operations_remote ms Hops). simpl.
  rewrite submitOps_inkSnapshot, Hsame. reflexivity.
Qed.

(** X8.  A layer that [getLayer] returns is one of the layers of
    [getLayers], and it sits at the position the index holds for the
    key, which is within the list. *)
Theorem getLayer_in_getLayers (key : string) s (layer : IInkLayer) :
  getLayer key s = Some layer ->
  layer ∈ getLayers s /\
  exists i : nat,
    layerIndex (inkSnapshot s) !! key = Some (Z.of_nat i) /\
    (i < length (getLayers s))%nat /\
    getLayers s !! i = Some layer.
Proof.
  unfold getLayer, getLayers, array_get. intros Hget.
  destruct (layerIndex (inkSnapshot s) !! key) as [z|]; [|discriminate].
  destruct (Z.ltb_spec z 0) as [Hneg|Hpos]; [discriminate|].
  split.
  - apply list_elem_of_lookup. eexists. exact Hget.
  - exists (Z.to_nat z). rewrite Z2Nat.id by exact Hpos.
    split; [reflexivity|]. split; [|exact Hget].
    apply lookup_lt_Some in Hget. exact Hget.
Qed.

(** X9.  Storing the tree of [snapshotContent] writes the header and
    nothing else: every other path of the storage holds what it held. *)
Theorem snapshotContent_writes_header_only s storage (p : string) :
  p <> snapshotFileName ->
  Storage.storage_write (snapshotContent JSON_stringify s) storage !! p
  = storage !! p.
Proof.
  intros Hp. unfold Storage.storage_write, snapshotContent. simpl.
  unfold Storage.storage_write_entry, Storage.blob_bytes. simpl.
  apply lookup_insert_ne. congruence.
Qed.

(** X21.  A stream initialized locally has no layers, and [getLayer] finds
    none under any key, provided [Snapshot.Clone] copies the empty
    snapshot as it is. *)
Theorem initializeContent_no_layers s :
  Clone emptySnapshot = emptySnapshot ->
  getLayers (initializeContent Clone s) = [] /\
  forall key, getLayer key (initializeContent Clone s) = None.
Proof.
  intros Hclone. unfold getLayers, getLayer, initializeContent, initialize.
  simpl. rewrite Hclone. split; [reflexivity|].
  intros key. simpl. rewrite lookup_empty. reflexivity.
Qed.

End InkStreamRuns.

(** * Further properties of the container code *)

Section FluidStaticRuns.

Import FluidStatic FluidPaths.

Context {IGetContainerService : Type}.

Implicit Types (w : World IGetContainerService).
Implicit Types (runtime : IContainerRuntime).
Implicit Types (this : FluidContainer).

Lemma append_nil_r (s : string) : s +:+ "" = s.
Proof.
  induction s as [|ch rest IH]; [reflexivity|].
  change (String ch rest +:+ "") with (String ch (rest +:+ "")).
  rewrite IH. reflexivity.
Qed.

Lemma append_assoc (s1 s2 s3 : string) :
  (s1 +:+ s2) +:+ s3 = s1 +:+ (s2 +:+ s3).
Proof.
  induction s1 as [|ch rest IH]; [reflexivity|].
  change (String ch (rest +:+ s2) +:+ s3 = String ch (rest +:+ (s2 +:+ s3))).
  change (String ch ((rest +:+ s2) +:+ s3) = String ch (rest +:+ (s2 +:+ s3))).
  rewrite IH. reflexivity.
Qed.

Lemma plain_no_slash (ch : ascii) (rest : string) :
  plain (String ch rest) = true ->
  Ascii.eqb ch "/"%char = false /\ plain rest = true.
Proof.
  simpl. intros H. apply andb_true_iff in H as [Hch Hrest].
  split; [|exact Hrest].
  unfold reserved in Hch. apply negb_true_iff in Hch.
  repeat (apply orb_false_iff in Hch as [Hch ?]). exact Hch.
Qed.

(** Reading a plain stretch of a url only lengthens the current part. *)
Lemma pathParts_from_plain (s rest cur : string) :
  plain s = true ->
  pathParts_from (s +:+ rest) cur = pathParts_from rest (cur +:+ s).
Proof.
  revert cur. induction s as [|ch s' IH]; intros cur Hplain.
  - rewrite append_nil_r. reflexivity.
  - apply plain_no_slash in Hplain as [Hch Hplain].
    change (String ch s' +:+ rest) with (String ch (s' +:+ rest)).
    simpl. rewrite Hch, (IH _ Hplain), append_assoc. reflexivity.
Qed.

Lemma pathParts_id (i : string) :
  segment i -> pathParts ("/" +:+ i) = [i].
Proof.
  intros [Hne Hplain]. unfold pathParts.
  change ("/" +:+ i) with (String "/"%char i). simpl.
  rewrite <- (append_nil_r i) at 1.
  rewrite (pathParts_from_plain _ _ _ Hplain). simpl.
  change ("" +:+ i) with i.
  destruct (String.eqb_spec i ""); [contradiction|reflexivity].
Qed.

Lemma pathParts_create (t i : string) :
  segment t -> segment i ->
  pathParts ("/create/" +:+ t +:+ "/" +:+ i) = ["create"; t; i].
Proof.
  intros [Htne Htplain] [Hine Hiplain]. unfold pathParts.
  change ("/create/" +:+ t +:+ "/" +:+ i)
    with (String "/"%char ("create" +:+ String "/"%char (t +:+ String "/"%char i))).
  simpl. rewrite (pathParts_from_plain _ _ _ Htplain).
  change ("" +:+ t) with t. simpl.
  destruct (String.eqb_spec t ""); [contradiction|].
  rewrite <- (append_nil_r i) at 1.
  rewrite (pathParts_from_plain _ _ _ Hiplain). simpl.
  change ("" +:+ i) with i.
  destruct (String.eqb_spec i ""); [contradiction|reflexivity].
Qed.

Lemma find_after_fresh (i : string) (l : list DataObject) (d : DataObject) :
  Forall (fun d' => id d' <> i) l ->
  id d = i ->
  List.find (fun d' => String.eqb (id d') i) (l ++ [d]) = Some d.
Proof.
  intros Hfresh Hid. induction Hfresh as [|d' rest Hd' _ IH]; simpl.
  - rewrite Hid, String.eqb_refl. reflexivity.
  - destruct (String.eqb_spec (id d') i); [contradiction|exact IH].
Qed.


(** A request for [/id] is a lookup: it is answered by the data objects
    the container has, and changes nothing. *)
Lemma IContainer_request_lookup (c : IContainer) (i : string) w runtime :
  segment i ->
  documents w !! document c = Some runtime ->
  IContainer_request c ("/" +:+ i) w = (runtime_request [i] runtime, w).
Proof.
  intros Hseg Hdoc. unfold IContainer_request, container_request.
  rewrite Hdoc, (pathParts_id _ Hseg). simpl.
  rewrite insert_id by exact Hdoc. destruct w; reflexivity.
Qed.

(** A request for [/create/type/id], with a type of the registry and an
    id that is free, adds the data object. *)
Lemma IContainer_request_create (c : IContainer) (t i : string) w runtime :
  segment t -> segment i ->
  documents w !! document c = Some runtime ->
  t ∈ registry c ->
  Forall (fun d => id d <> i) (dataStores runtime) ->
  let runtime' :=
    {| dataStores := dataStores runtime ++ [ {| id := i; pkg := t |} ] |} in
  IContainer_request c ("/create/" +:+ t +:+ "/" +:+ i) w
  = (runtime_request [i] runtime',
     set_documents w (<[document c := runtime']> (documents w))).
Proof.
  intros Ht Hi Hdoc Hreg Hfresh runtime'.
  unfold IContainer_request, container_request.
  rewrite Hdoc, (pathParts_create _ _ Ht Hi).
  unfold createRequestHandler. rewrite String.eqb_refl.
  rewrite (createRootDataStore_Ok _ _ _ _ (proj2 (hasDataStore_false _ _) Hfresh)
             Hreg).
  reflexivity.
Qed.

Lemma getDataObject_segment this (i : string) w runtime :
  segment i ->
  documents w !! container this = Some runtime ->
  FluidContainer_getDataObject this i w
  = (match List.find (fun d => String.eqb (id d) i) (dataStores runtime) with
     | Some d => Ok d
     | None => Pending
     end, w).
Proof.
  intros Hseg Hdoc.
  unfold FluidContainer_getDataObject, getObjectWithIdFromContainer.
  rewrite (IContainer_request_lookup (this_container this) _ _ _ Hseg Hdoc).
  simpl. destruct (List.find _ _); reflexivity.
Qed.

(** X10.  [createDataObject] for a registered type and an id that is not
    in use adds exactly one data object, of that type and under that id,
    after the ones the document has, and returns it; from then on
    [getDataObject] finds it under the id, through this container and
    through any container obtained by loading the document later. *)
Theorem createDataObject_then_getDataObject this
    (dataObjectClass : IFluidStaticDataObjectClass) (i : string) w runtime :
  type (factory dataObjectClass) ∈ types this ->
  segment (type (factory dataObjectClass)) ->
  segment i ->
  documents w !! container this = Some runtime ->
  Forall (fun d => id d <> i) (dataStores runtime) ->
  let created := {| id := i; pkg := type (factory dataObjectClass) |} in
  exists w',
    FluidContainer_createDataObject this dataObjectClass i w = (Ok created, w') /\
    globalFluid w' = globalFluid w /\
    documents w'
    = <[container this := {| dataStores := dataStores runtime ++ [created] |}]>
        (documents w) /\
    FluidContainer_getDataObject this i w' = (Ok created, w') /\
    forall (instance : FluidInstance IGetContainerService) (config : ContainerConfig),
      dataObjects config <> [] ->
      NoDup ((fun d => type (factory d)) <$> dataObjects config) ->
      exists loaded,
        FluidInstance_getContainer instance (container this) config w'
        = (Ok loaded, w') /\
        FluidContainer_getDataObject loaded i w' = (Ok created, w').
Proof.
  intros Hreg Htype Hid Hdoc Hfresh created.
  set (runtime' := {| dataStores := dataStores runtime ++ [created] |}).
  set (w1 := set_documents w (<[container this := runtime']> (documents w))).
  assert (Hdoc1 : documents w1 !! container this = Some runtime')
    by apply lookup_insert_eq.
  assert (Hfind : List.find (fun d => String.eqb (id d) i) (dataStores runtime')
                  = Some created)
    by (apply find_after_fresh; [exact Hfresh|reflexivity]).
  assert (Hget : forall fc, container fc = container this ->
                   FluidContainer_getDataObject fc i w1 = (Ok created, w1)).
  { intros fc Hfc. rewrite <- Hfc in Hdoc1.
    rewrite (getDataObject_segment fc i w1 runtime' Hid Hdoc1), Hfind.
    reflexivity. }
  exists w1. split; [|split; [reflexivity|split; [reflexivity|split]]].
  - unfold FluidContainer_createDataObject.
    rewrite bool_decide_eq_true_2 by exact Hreg. simpl.
    rewrite (IContainer_request_create (this_container this) _ _ _ _ Htype Hid
               Hdoc Hreg Hfresh).
    fold created runtime' w1. unfold runtime_request. rewrite Hfind.
    apply Hget. reflexivity.
  - apply Hget. reflexivity.
  - intros instance config Hne Hnd.
    destruct (FluidInstance_getContainer_existing instance (container this)
                config w1 runtime' Hdoc1 Hne Hnd) as (loaded & Hload & Hc & _).
    exists loaded. split; [exact Hload|]. apply Hget. exact Hc.
Qed.



(** X12.  [createRequestHandler] answers a request exactly when its path
    has the three parts [create], a type and an id.  It then has the root
    data object of that type created under that id: when the runtime
    creates it, the handler answers with the lookup of the id in the
    runtime that holds it; when the runtime rejects the creation, the
    handler is rejected with the same error, the runtime as it was.
    Every other path it passes on, the runtime untouched. *)
Theorem createRequestHandler_cases (registry : gset string)
    (parts : list string) runtime :
  (createRequestHandler registry parts runtime = None <->
     forall t i, parts <> ["create"; t; i]) /\
  (forall t i, parts = ["create"; t; i] ->
     (forall runtime', createRootDataStore registry t i runtime = Ok runtime' ->
        createRequestHandler registry parts runtime
        = Some (runtime_request [i] runtime', runtime')) /\
     (forall e, createRootDataStore registry t i runtime = Throw e ->
        createRequestHandler registry parts runtime
        = Some (Throw e, runtime))).
Proof.
  split.
  - split.
    + intros Hnone t i ->. discriminate.
    + intros Hne. unfold createRequestHandler.
      destruct parts as [|p0 [|p1 [|p2 [|p3 rest]]]]; try reflexivity.
      destruct (String.eqb_spec p0 "create") as [->|_]; [|reflexivity].
      exfalso. exact (Hne p1 p2 eq_refl).
  - intros t i ->. unfold createRequestHandler. rewrite String.eqb_refl.
    split; intros r ->; reflexivity.
Qed.

Lemma container_request_prefix (registry : gset string) (url : string) runtime :
  dataStores runtime
    `prefix_of` dataStores (container_request registry url runtime).2.
Proof.
  unfold container_request, createRequestHandler.
  destruct (pathParts url) as [|p0 [|p1 [|p2 [|p3 rest]]]]; simpl; try reflexivity.
  destruct (String.eqb p0 "create"); simpl; [|reflexivity].
  destruct (createRootDataStore registry p1 p2 runtime) as [runtime'|e|] eqn:Hc;
    simpl; try reflexivity.
  apply createRootDataStore_Ok_inv in Hc as [_ ->].
  apply prefix_app_r. reflexivity.
Qed.

Lemma grows_refl w : grows w w.
Proof.
  split; [reflexivity|]. intros c runtime Hdoc. exists runtime.
  split; [exact Hdoc|reflexivity].
Qed.

Lemma grows_trans w1 w2 w3 : grows w1 w2 -> grows w2 w3 -> grows w1 w3.
Proof.
  intros [Hg12 H12] [Hg23 H23]. split; [congruence|].
  intros c runtime Hdoc.
  destruct (H12 c runtime Hdoc) as (r2 & Hdoc2 & Hp2).
  destruct (H23 c r2 Hdoc2) as (r3 & Hdoc3 & Hp3).
  exists r3. split; [exact Hdoc3|]. etransitivity; eassumption.
Qed.

Lemma IContainer_request_grows (c : IContainer) (url : string) w :
  grows w (IContainer_request c url w).2.
Proof.
  unfold IContainer_request.
  destruct (documents w !! document c) as [runtime|] eqn:Hdoc;
    [|apply grows_refl].
  pose proof (container_request_prefix (registry c) url runtime) as Hprefix.
  destruct (container_request (registry c) url runtime) as [response runtime'].
  simpl in *.
  split; [reflexivity|]. intros c' r Hdoc'. simpl.
  destruct (decide (document c = c')) as [<-|Hne].
  - rewrite lookup_insert_eq. exists runtime'. split; [reflexivity|].
    rewrite Hdoc in Hdoc'. injection Hdoc' as <-. exact Hprefix.
  - rewrite lookup_insert_ne by exact Hne. exists r.
    split; [exact Hdoc'|reflexivity].
Qed.

Lemma getDataObject_grows this (i : string) w :
  grows w (FluidContainer_getDataObject this i w).2.
Proof.
  unfold FluidContainer_getDataObject, getObjectWithIdFromContainer.
  pose proof (IContainer_request_grows (this_container this) ("/" +:+ i) w)
    as Hg.
  destruct (IContainer_request _ _ w) as [[response|e|] w'];
    [destruct (value response)|..]; exact Hg.
Qed.

(** X13.  Whatever its arguments and whether it succeeds or throws,
    [createDataObject] loses nothing: every document is still there, the
    data objects it had are still the first ones, in their order, and the
    global instance is untouched.  The same holds for [getDataObject]. *)
Theorem FluidContainer_operations_grow this
    (dataObjectClass : IFluidStaticDataObjectClass) (i : string) w :
  grows w (FluidContainer_createDataObject this dataObjectClass i w).2 /\
  grows w (FluidContainer_getDataObject this i w).2.
Proof.
  split; [|apply getDataObject_grows].
  unfold FluidContainer_createDataObject.
  destruct (negb (bool_decide (type (factory dataObjectClass) ∈ types this)));
    [apply grows_refl|].
  pose proof (IContainer_request_grows (this_container this)
                ("/create/" +:+ type (factory dataObjectClass) +:+ "/" +:+ i) w)
    as Hg1.
  destruct (IContainer_request _ _ w) as [[response|e|] w1]; simpl in Hg1;
    try exact Hg1.
  eapply grows_trans; [exact Hg1|apply getDataObject_grows].
Qed.

Lemma find_eager_objects (l : list (string * IFluidStaticDataObjectClass))
    (i : string) (d : IFluidStaticDataObjectClass) :
  NoDup l.*1 ->
  (i, d) ∈ l ->
  List.find (fun o => String.eqb (id o) i) (eager_objects l)
  = Some {| id := i; pkg := type (factory d) |}.
Proof.
  induction l as [|[i' d'] rest IH]; intros Hnd Hin; [inversion Hin|].
  simpl in Hnd. apply NoDup_cons in Hnd as [Hnotin Hnd].
  apply elem_of_cons in Hin as [Heq|Hin]; simpl.
  - injection Heq as <- <-. rewrite String.eqb_refl. reflexivity.
  - destruct (String.eqb_spec i' i) as [->|_]; [|exact (IH Hnd Hin)].
    exfalso. apply Hnotin. apply list_elem_of_fmap. exists (i, d).
    split; [reflexivity|exact Hin].
Qed.

Lemma find_skip (i : string) (d : DataObject) (l : list DataObject) :
  id d <> i ->
  List.find (fun o => String.eqb (id o) i) (d :: l)
  = List.find (fun o => String.eqb (id o) i) l.
Proof.
  intros Hne. simpl. destruct (String.eqb_spec (id d) i); [contradiction|].
  reflexivity.
Qed.

(** X14.  On a new runtime the first-time hook accepts an eager list
    whose ids differ from one another and from the scheduler's and whose
    classes are in the registry of the factory, and afterwards every id
    of the list resolves, with status 200, to a data object of the type
    its entry names. *)
Theorem eager_objects_resolve (this : DOProviderContainerRuntimeFactory)
    (i : string) (d : IFluidStaticDataObjectClass) :
  eager_list_ok (factory_registry this) (initialDataObjects this) ->
  (i, d) ∈ initialDataObjects this ->
  exists runtime,
    containerInitializingFirstTime this newRuntime = Ok runtime /\
    runtime_request [i] runtime
    = Ok {| status := 200;
            value := Some {| id := i; pkg := type (factory d) |} |}.
Proof.
  intros Hok Hin. unfold containerInitializingFirstTime.
  rewrite (createInitialDataObjects_new _ _ Hok).
  eexists. split; [reflexivity|]. destruct Hok as [Hnd Hall].
  destruct (proj1 (Forall_forall _ _) Hall (i, d) Hin) as [Hid _].
  unfold runtime_request, newRuntime. cbn [dataStores app].
  rewrite find_skip by (cbn [id fst] in *; congruence).
  rewrite (find_eager_objects _ _ _ Hnd Hin). reflexivity.
Qed.

(** X15.  With an empty list of data-object classes [createContainer] and
    [getContainer] throw before the service is asked for anything: no
    document is created or opened, the world is as before. *)
Theorem empty_registry_refused (this : FluidInstance IGetContainerService)
    (i : string) (createConfig : ContainerCreateConfig)
    (loadConfig : ContainerConfig) w :
  dataObjects createConfig = [] ->
  dataObjects loadConfig = [] ->
  FluidInstance_createContainer this i createConfig w
  = (Throw (Error "Container cannot be initialized without DataObjects"), w) /\
  FluidInstance_getContainer this i loadConfig w
  = (Throw (Error "Container cannot be initialized without DataObjects"), w).
Proof.
  intros Hc Hl. unfold FluidInstance_createContainer, FluidInstance_getContainer.
  rewrite Hc, Hl. split; reflexivity.
Qed.

Lemma FluidContainer_forEach_first_clash
    (before after : list NamedFluidDataStoreRegistryEntry)
    (e : NamedFluidDataStoreRegistryEntry) (acc : gset string) :
  NoDup (typeTags before) ->
  (forall t, t ∈ typeTags before -> t ∉ acc) ->
  e.1 ∈ acc ∪ list_to_set (typeTags before) ->
  FluidContainer_forEach (before ++ e :: after) acc
  = Throw (Error ("Multiple DataObjects share the same type identifier "
                  +:+ entry_toString e)).
Proof.
  revert acc. induction before as [|[t f] rest IH]; intros acc Hnd Hfresh Hin; simpl.
  - rewrite bool_decide_eq_true_2 by set_solver. reflexivity.
  - apply NoDup_cons in Hnd as [Hnotin Hnd].
    rewrite bool_decide_eq_false_2 by (apply Hfresh; simpl; left).
    apply IH.
    + exact Hnd.
    + intros t' Hin'. unfold typeTags in *. simpl in Hfresh.
      assert (t' <> t) by (intros ->; contradiction).
      assert (t' ∉ acc) by (apply Hfresh; right; exact Hin').
      set_solver.
    + unfold typeTags in *. simpl in Hin. set_solver.
Qed.

(** X16.  The error of the constructor names the first entry whose type
    tag has occurred before it: the tag, a comma, and the text of the
    promise in the entry. *)
Theorem constructor_names_first_clash (c : string)
    (before after : list NamedFluidDataStoreRegistryEntry)
    (e : NamedFluidDataStoreRegistryEntry) (b : bool) :
  NoDup (typeTags before) ->
  e.1 ∈ typeTags before ->
  new_FluidContainer c (before ++ e :: after) b
  = Throw (Error ("Multiple DataObjects share the same type identifier "
                  +:+ e.1 +:+ ",[object Promise]")).
Proof.
  intros Hnd Hin. unfold new_FluidContainer.
  rewrite (FluidContainer_forEach_first_clash before after e ∅ Hnd);
    [reflexivity|set_solver|set_solver].
Qed.

Lemma getRegistryEntries_cases (classes : list IFluidStaticDataObjectClass) :
  (classes = [] /\
   FluidInstance_getRegistryEntries classes
   = Throw (Error "Container cannot be initialized without DataObjects")) \/
  (classes <> [] /\
   FluidInstance_getRegistryEntries classes
   = Ok ((fun d => (type (factory d), factory d)) <$> classes)).
Proof.
  destruct classes as [|d rest]; [left|right]; split; try reflexivity.
  discriminate.
Qed.

Lemma new_FluidContainer_Ok_fields (c : string)
    (entries : list NamedFluidDataStoreRegistryEntry) (b : bool) this :
  new_FluidContainer c entries b = Ok this ->
  container this = c /\ createNew this = b.
Proof.
  unfold new_FluidContainer. intros Hnew.
  destruct (FluidContainer_forEach entries ∅); simpl in Hnew;
    [|discriminate..].
  injection Hnew as <-. split; reflexivity.
Qed.

Lemma elem_of_registry_tags (classes : list IFluidStaticDataObjectClass) (t : string) :
  t ∈ typeTags ((fun d => (type (factory d), factory d)) <$> classes) <->
  exists d, d ∈ classes /\ type (factory d) = t.
Proof.
  rewrite typeTags_registryEntries, list_elem_of_fmap. split.
  - intros (d & -> & Hin). exists d. split; [exact Hin|reflexivity].
  - intros (d & Hin & <-). exists d. split; [reflexivity|exact Hin].
Qed.

(** X17.  The container that [createContainer] or [getContainer] returns
    refers to the document of the given id, carries [createNew] as true
    or false accordingly, and its types are exactly the type tags of the
    classes of the configuration: those are the classes [createDataObject]
    will accept. *)
Theorem returned_container_types (this : FluidInstance IGetContainerService)
    (i : string) (createConfig : ContainerCreateConfig)
    (loadConfig : ContainerConfig) w (fc : FluidContainer) w1 :
  (FluidInstance_createContainer this i createConfig w = (Ok fc, w1) ->
     container fc = i /\ createNew fc = true /\
     forall t, t ∈ types fc <->
       exists d, d ∈ dataObjects createConfig /\ type (factory d) = t) /\
  (FluidInstance_getContainer this i loadConfig w = (Ok fc, w1) ->
     container fc = i /\ createNew fc = false /\
     forall t, t ∈ types fc <->
       exists d, d ∈ dataObjects loadConfig /\ type (factory d) = t).
Proof.
  split.
  - unfold FluidInstance_createContainer.
    destruct (getRegistryEntries_cases (dataObjects createConfig))
      as [[_ ->]|[_ ->]]; [discriminate|].
    unfold getContainer.
    destruct (documents w !! i) as [stored|]; [discriminate|].
    destruct (instantiateRuntime _ false newRuntime); try discriminate.
    intros Hres. injection Hres as Hnew _.
    destruct (new_FluidContainer_Ok_fields _ _ _ _ Hnew) as [Hc Hb].
    apply new_FluidContainer_Ok_types in Hnew as [Htypes _].
    split; [exact Hc|]. split; [exact Hb|].
    intros t. rewrite Htypes, elem_of_list_to_set.
    apply elem_of_registry_tags.
  - unfold FluidInstance_getContainer.
    destruct (getRegistryEntries_cases (dataObjects loadConfig))
      as [[_ ->]|[_ ->]]; [discriminate|].
    unfold getContainer.
    destruct (documents w !! i) as [stored|];
      [|destruct (instantiateRuntime _ false newRuntime); discriminate].
    rewrite instantiateRuntime_load_factory.
    intros Hres. injection Hres as Hnew _.
    destruct (new_FluidContainer_Ok_fields _ _ _ _ Hnew) as [Hc Hb].
    apply new_FluidContainer_Ok_types in Hnew as [Htypes _].
    split; [exact Hc|]. split; [exact Hb|].
    intros t. rewrite Htypes, elem_of_list_to_set.
    apply elem_of_registry_tags.
Qed.

(** X18.  [getContainer] on a document that exists changes nothing,
    whether it returns a container or throws for a clashing registry: the
    eager list is never run on load.  With an empty list of classes it
    changes nothing either, whatever the id. *)
Theorem getContainer_changes_nothing (this : FluidInstance IGetContainerService)
    (i : string) (config : ContainerConfig) w :
  is_Some (documents w !! i) \/ dataObjects config = [] ->
  (FluidInstance_getContainer this i config w).2 = w.
Proof.
  intros Hcase. unfold FluidInstance_getContainer.
  destruct (getRegistryEntries_cases (dataObjects config))
    as [[_ ->]|[Hne ->]]; [reflexivity|].
  destruct Hcase as [[stored Hdoc]|Hempty]; [|contradiction].
  unfold getContainer.
  rewrite Hdoc, instantiateRuntime_load_factory, insert_id by exact Hdoc.
  rewrite set_documents_same. destruct (new_FluidContainer _ _ _); reflexivity.
Qed.

(** X19.  After [Fluid.init] with a service, on a world without a global
    instance, the documents are as before and [Fluid.createContainer] and
    [Fluid.getContainer] are those of the instance made from that
    service. *)
Theorem Fluid_after_init (service : IGetContainerService) w :
  globalFluid w = None ->
  exists w1,
    Fluid_init (Some service) w = (Ok tt, w1) /\
    documents w1 = documents w /\
    (forall i config,
       Fluid_createContainer i config w1
       = FluidInstance_createContainer {| containerService := service |}
           i config w1) /\
    (forall i config,
       Fluid_getContainer i config w1
       = FluidInstance_getContainer {| containerService := service |}
           i config w1).
Proof.
  intros Hnone. eexists. split.
  - unfold Fluid_init. rewrite Hnone. reflexivity.
  - repeat split.
Qed.

(** X20.  [Fluid.init] without a service throws and puts no instance in
    place: afterwards [Fluid.createContainer] and [Fluid.getContainer]
    still throw their not-initialized errors, and a later [Fluid.init]
    with a service succeeds. *)
Theorem Fluid_failed_init (service : IGetContainerService) (i : string)
    (createConfig : ContainerCreateConfig) (loadConfig : ContainerConfig) w :
  globalFluid w = None ->
  let w1 := (Fluid_init None w).2 in
  (Fluid_init None w).1
  = Throw (Error "Fluid cannot be initialized without a ContainerService") /\
  w1 = w /\
  Fluid_createContainer i createConfig w1
  = (Throw (Error ("Fluid has not been properly initialized before "
                   +:+ "attempting to create a container")), w1) /\
  Fluid_getContainer i loadConfig w1
  = (Throw (Error ("Fluid has not been properly initialized before "
                   +:+ "attempting to get a container")), w1) /\
  (Fluid_init (Some service) w1).1 = Ok tt.
Proof.
  intros Hnone w1. subst w1.
  unfold Fluid_init, Fluid_createContainer, Fluid_getContainer.
  rewrite Hnone. simpl. rewrite Hnone. repeat split.
Qed.

End FluidStaticRuns.

(** * The further properties at work *)

Lemma loadContent_without_header_witness :
  InkStream.loadContent InkExample.Clone InkExample.JSON_parse 0 "origin"
    ∅ InkExample.drawn
  = Ok (InkStream.initializeContent InkExample.Clone InkExample.drawn).
Proof.
  apply (loadContent_without_header InkExample.Clone InkExample.JSON_parse
           0 "origin" ∅ InkExample.drawn).
  left. reflexivity.
Defined.

Lemma loadContent_parsed_header_witness :
  exists s',
    InkStream.loadContent InkExample.Clone InkExample.JSON_parse 0 "origin"
      {[ "header" :=
           InkExample.JSON_stringify (InkStream.inkSnapshot InkExample.drawn) ]}
      InkExample.fresh = Ok s' /\
    InkStream.inkSnapshot s'
    = InkExample.Clone (InkStream.inkSnapshot InkExample.drawn) /\
    InkStream.pendingLocalOps s' = InkStream.pendingLocalOps InkExample.fresh /\
    InkStream.outbound s' = InkStream.outbound InkExample.fresh.
Proof.
  apply (loadContent_parsed_header InkExample.Clone InkExample.JSON_parse
           0 "origin" _ InkExample.fresh
           (InkExample.JSON_stringify (InkStream.inkSnapshot InkExample.drawn))
           (InkStream.inkSnapshot InkExample.drawn)).
  - vm_compute. reflexivity.
  - vm_compute. discriminate.
  - vm_compute. reflexivity.
Defined.

Lemma loadContent_corrupt_header_witness :
  InkStream.loadContent InkExample.Clone InkExample.JSON_parse 0 "origin"
    {[ "header" := "{layers" ]} InkExample.fresh
  = Throw (Error "SyntaxError").
Proof.
  apply (loadContent_corrupt_header InkExample.Clone InkExample.JSON_parse
           0 "origin" _ InkExample.fresh "{layers" (Error "SyntaxError")).
  - vm_compute. reflexivity.
  - discriminate.
  - vm_compute. reflexivity.
Defined.

Lemma loadContent_reads_header_only_witness :
  InkStream.loadContent InkExample.Clone InkExample.JSON_parse 0 "a"
    {[ "header" := "{layers" ]} InkExample.fresh
  = InkStream.loadContent InkExample.Clone InkExample.JSON_parse 7 "b"
      (<[ "attachment" := "bytes" ]> {[ "header" := "{layers" ]})
      InkExample.fresh.
Proof.
  apply (loadContent_reads_header_only InkExample.Clone InkExample.JSON_parse
           0 7 "a" "b" _ _ InkExample.fresh).
  vm_compute. reflexivity.
Defined.

Lemma echoed_submissions_agree_with_remote_witness :
  InkStream.inkSnapshot
    (InkSession.deliver InkExample.apply
       ((fun m => (m, true))
          <$> [InkExample.message InkStream.Operation "a";
               InkExample.message InkStream.Operation "b"])
       (InkSession.submitOps InkExample.apply
          (InkStream.contents
             <$> [InkExample.message InkStream.Operation "a";
                  InkExample.message InkStream.Operation "b"])
          InkExample.fresh))
  = InkStream.inkSnapshot
      (InkSession.deliver InkExample.apply
         ((fun m => (m, false))
            <$> [InkExample.message InkStream.Operation "a";
                 InkExample.message InkStream.Operation "b"])
         InkExample.fresh).
Proof.
  apply (echoed_submissions_agree_with_remote InkExample.apply
           [InkExample.message InkStream.Operation "a";
            InkExample.message InkStream.Operation "b"]
           InkExample.fresh InkExample.fresh).
  - repeat constructor.
  - reflexivity.
Defined.

Lemma getLayer_in_getLayers_witness :
  "b" ∈ InkStream.getLayers InkExample.drawn /\
  exists i : nat,
    InkStream.layerIndex (InkStream.inkSnapshot InkExample.drawn) !! "b"
    = Some (Z.of_nat i) /\
    (i < length (InkStream.getLayers InkExample.drawn))%nat /\
    InkStream.getLayers InkExample.drawn !! i = Some "b".
Proof.
  apply (getLayer_in_getLayers "b" InkExample.drawn "b"). reflexivity.
Defined.

Lemma snapshotContent_writes_header_only_witness :
  Storage.storage_write
    (InkStream.snapshotContent InkExample.JSON_stringify InkExample.drawn)
    {[ "attachment" := "bytes" ]} !! "attachment"
  = ({[ "attachment" := "bytes" ]} : gmap string string) !! "attachment".
Proof.
  apply (snapshotContent_writes_header_only InkExample.JSON_stringify
           InkExample.drawn {[ "attachment" := "bytes" ]} "attachment").
  discriminate.
Defined.

Lemma initializeContent_no_layers_witness :
  InkStream.getLayers (InkStream.initializeContent InkExample.Clone InkExample.drawn)
  = [] /\
  forall key,
    InkStream.getLayer key
      (InkStream.initializeContent InkExample.Clone InkExample.drawn) = None.
Proof.
  apply (initializeContent_no_layers InkExample.Clone InkExample.drawn).
  reflexivity.
Defined.

Lemma createDataObject_then_getDataObject_witness :
  let created :=
    {| FluidStatic.id := "dice"; FluidStatic.pkg := "foo-dataobject" |} in
  exists w',
    FluidStatic.FluidContainer_createDataObject FluidExample.fooContainer
      FluidExample.Foo "dice" FluidScenario.opened = (Ok created, w') /\
    FluidStatic.globalFluid w' = FluidStatic.globalFluid FluidScenario.opened /\
    FluidStatic.documents w'
    = <[ "doc" :=
           {| FluidStatic.dataStores :=
                FluidStatic.dataStores FluidStatic.newRuntime ++ [created] |} ]>
        (FluidStatic.documents FluidScenario.opened) /\
    FluidStatic.FluidContainer_getDataObject FluidExample.fooContainer "dice" w'
    = (Ok created, w') /\
    forall (instance : FluidStatic.FluidInstance FluidExample.Service)
           (config : FluidStatic.ContainerConfig),
      FluidStatic.dataObjects config <> [] ->
      NoDup ((fun d => FluidStatic.type (FluidStatic.factory d))
               <$> FluidStatic.dataObjects config) ->
      exists loaded,
        FluidStatic.FluidInstance_getContainer instance "doc" config w'
        = (Ok loaded, w') /\
        FluidStatic.FluidContainer_getDataObject loaded "dice" w'
        = (Ok created, w').
Proof.
  apply (createDataObject_then_getDataObject FluidExample.fooContainer
           FluidExample.Foo "dice" FluidScenario.opened
           FluidStatic.newRuntime).
  - apply (bool_decide_unpack _). vm_compute. exact I.
  - split; [discriminate|reflexivity].
  - split; [discriminate|reflexivity].
  - vm_compute. reflexivity.
  - constructor; [discriminate|constructor].
Defined.


(** On the document of the scenario: [bar2] is found, [dice] is waited
    for. *)
Example getDataObject_on_created :
  let w := FluidScenario.created.2 in
  FluidStatic.FluidContainer_getDataObject FluidScenario.createdContainer
    "bar2" w
  = (Ok {| FluidStatic.id := "bar2"; FluidStatic.pkg := "bar-dataobject" |}, w) /\
  FluidStatic.FluidContainer_getDataObject FluidScenario.createdContainer
    "dice" w
  = (Pending, w).
Proof. vm_compute. split; reflexivity. Qed.

Lemma createRequestHandler_cases_witness :
  FluidStatic.createRequestHandler {[ "foo-dataobject" ]}
    ["create"; "foo-dataobject"; "dice"] FluidStatic.newRuntime
  = Some (FluidStatic.runtime_request ["dice"]
            {| FluidStatic.dataStores :=
                 FluidStatic.dataStores FluidStatic.newRuntime
                 ++ [ {| FluidStatic.id := "dice";
                         FluidStatic.pkg := "foo-dataobject" |} ] |},
          {| FluidStatic.dataStores :=
               FluidStatic.dataStores FluidStatic.newRuntime
               ++ [ {| FluidStatic.id := "dice";
                       FluidStatic.pkg := "foo-dataobject" |} ] |}) /\
  FluidStatic.createRequestHandler {[ "foo-dataobject" ]}
    ["create"; "bar-dataobject"; "dice"] FluidStatic.newRuntime
  = Some (Throw (FluidStatic.UnregisteredPackageError "bar-dataobject"),
          FluidStatic.newRuntime) /\
  FluidStatic.createRequestHandler {[ "foo-dataobject" ]} ["dice"]
    FluidStatic.newRuntime
  = None.
Proof.
  split; [|split].
  - apply (proj1 (proj2 (createRequestHandler_cases {[ "foo-dataobject" ]}
                           ["create"; "foo-dataobject"; "dice"]
                           FluidStatic.newRuntime)
                    "foo-dataobject" "dice" eq_refl)).
    vm_compute. reflexivity.
  - apply (proj2 (proj2 (createRequestHandler_cases {[ "foo-dataobject" ]}
                           ["create"; "bar-dataobject"; "dice"]
                           FluidStatic.newRuntime)
                    "bar-dataobject" "dice" eq_refl)).
    vm_compute. reflexivity.
  - apply (proj2 (proj1 (createRequestHandler_cases {[ "foo-dataobject" ]}
                           ["dice"] FluidStatic.newRuntime))).
    intros t i. discriminate.
Defined.

Lemma eager_objects_resolve_witness :
  exists runtime,
    FluidStatic.containerInitializingFirstTime
      (FluidStatic.new_DOProviderContainerRuntimeFactory
         (FluidExample.registryEntry <$> [FluidExample.Foo; FluidExample.Bar])
         (Some [("foo1", FluidExample.Foo); ("bar2", FluidExample.Bar)]))
      FluidStatic.newRuntime = Ok runtime /\
    FluidStatic.runtime_request ["bar2"] runtime
    = Ok {| FluidStatic.status := 200;
            FluidStatic.value :=
              Some {| FluidStatic.id := "bar2";
                      FluidStatic.pkg :=
                        FluidStatic.type (FluidStatic.factory FluidExample.Bar) |} |}.
Proof.
  apply (eager_objects_resolve
           (FluidStatic.new_DOProviderContainerRuntimeFactory
              (FluidExample.registryEntry <$> [FluidExample.Foo; FluidExample.Bar])
              (Some [("foo1", FluidExample.Foo); ("bar2", FluidExample.Bar)]))
           "bar2" FluidExample.Bar).
  - apply (bool_decide_unpack _). vm_compute. exact I.
  - simpl. right. left.
Defined.

Lemma empty_registry_refused_witness :
  FluidStatic.FluidInstance_createContainer FluidExample.instance "doc"
    FluidScenario.emptyConfig FluidExample.started
  = (Throw (Error "Container cannot be initialized without DataObjects"),
     FluidExample.started) /\
  FluidStatic.FluidInstance_getContainer FluidExample.instance "doc"
    (FluidStatic.config_base FluidScenario.emptyConfig) FluidExample.started
  = (Throw (Error "Container cannot be initialized without DataObjects"),
     FluidExample.started).
Proof.
  apply (empty_registry_refused FluidExample.instance "doc"
           FluidScenario.emptyConfig
           (FluidStatic.config_base FluidScenario.emptyConfig)
           FluidExample.started); reflexivity.
Defined.

Lemma constructor_names_first_clash_witness :
  FluidStatic.new_FluidContainer "doc"
    ((FluidExample.registryEntry <$> [FluidExample.Foo; FluidExample.Bar])
     ++ FluidExample.registryEntry FluidExample.Foo
        :: (FluidExample.registryEntry <$> [FluidExample.Bar]))
    true
  = Throw (Error ("Multiple DataObjects share the same type identifier "
                  +:+ (FluidExample.registryEntry FluidExample.Foo).1
                  +:+ ",[object Promise]")).
Proof.
  apply (constructor_names_first_clash "doc"
           (FluidExample.registryEntry <$> [FluidExample.Foo; FluidExample.Bar])
           (FluidExample.registryEntry <$> [FluidExample.Bar])
           (FluidExample.registryEntry FluidExample.Foo) true).
  - apply (bool_decide_unpack _). vm_compute. exact I.
  - apply (bool_decide_unpack _). vm_compute. exact I.
Defined.

Lemma returned_container_types_witness :
  FluidStatic.container FluidScenario.createdContainer = "doc" /\
  FluidStatic.createNew FluidScenario.createdContainer = true /\
  forall t, t ∈ FluidStatic.types FluidScenario.createdContainer <->
    exists d, d ∈ FluidStatic.dataObjects
                    (FluidStatic.config_base FluidExample.createConfig)
              /\ FluidStatic.type (FluidStatic.factory d) = t.
Proof.
  apply (proj1 (returned_container_types FluidExample.instance "doc"
                  FluidExample.createConfig
                  (FluidStatic.config_base FluidExample.createConfig)
                  FluidExample.started FluidScenario.createdContainer
                  FluidScenario.created.2)).
  vm_compute. reflexivity.
Defined.

Lemma Fluid_after_init_witness :
  exists w1,
    FluidStatic.Fluid_init (Some FluidExample.TinyliciousService)
      FluidScenario.blank = (Ok tt, w1) /\
    FluidStatic.documents w1 = FluidStatic.documents FluidScenario.blank /\
    (forall i config,
       FluidStatic.Fluid_createContainer i config w1
       = FluidStatic.FluidInstance_createContainer
           {| FluidStatic.containerService := FluidExample.TinyliciousService |}
           i config w1) /\
    (forall i config,
       FluidStatic.Fluid_getContainer i config w1
       = FluidStatic.FluidInstance_getContainer
           {| FluidStatic.containerService := FluidExample.TinyliciousService |}
           i config w1).
Proof.
  apply (Fluid_after_init FluidExample.TinyliciousService FluidScenario.blank).
  reflexivity.
Defined.

Lemma Fluid_failed_init_witness :
  let w1 := (FluidStatic.Fluid_init None FluidScenario.blank).2 in
  (FluidStatic.Fluid_init None FluidScenario.blank).1
  = Throw (Error "Fluid cannot be initialized without a ContainerService") /\
  w1 = FluidScenario.blank /\
  FluidStatic.Fluid_createContainer "doc" FluidExample.createConfig w1
  = (Throw (Error ("Fluid has not been properly initialized before "
                   +:+ "attempting to create a container")), w1) /\
  FluidStatic.Fluid_getContainer "doc"
    (FluidStatic.config_base FluidExample.createConfig) w1
  = (Throw (Error ("Fluid has not been properly initialized before "
                   +:+ "attempting to get a container")), w1) /\
  (FluidStatic.Fluid_init (Some FluidExample.TinyliciousService) w1).1 = Ok tt.
Proof.
  apply (Fluid_failed_init FluidExample.TinyliciousService "doc"
           FluidExample.createConfig
           (FluidStatic.config_base FluidExample.createConfig)
           FluidScenario.blank).
  reflexivity.
Defined.

Lemma getContainer_changes_nothing_witness :
  (FluidStatic.FluidInstance_getContainer FluidExample.instance "doc"
     (FluidStatic.config_base FluidExample.clashingConfig)
     FluidScenario.created.2).2
  = FluidScenario.created.2.
Proof.
  apply (getContainer_changes_nothing FluidExample.instance "doc"
           (FluidStatic.config_base FluidExample.clashingConfig)
           FluidScenario.created.2).
  left. eexists. vm_compute. reflexivity.
Defined.

(** Loading a document that the service does not know fails, and leaves a
    document behind: loading it again succeeds. *)
Example load_unknown_document :
  let '(r, w1) :=
    FluidStatic.FluidInstance_getContainer FluidExample.instance "doc"
      (FluidStatic.config_base FluidExample.createConfig) FluidExample.started in
  r = Throw FluidStatic.NonExistingContainerError /\
  FluidStatic.documents w1 !! "doc" = Some FluidStatic.newRuntime /\
  exists fc,
    FluidStatic.FluidInstance_getContainer FluidExample.instance "doc"
      (FluidStatic.config_base FluidExample.createConfig) w1 = (Ok fc, w1).
Proof. vm_compute. repeat split. eexists. reflexivity. Qed.

(** Creating under an id that is in use is refused, the document kept. *)
Example create_on_document_in_use :
  FluidStatic.FluidInstance_createContainer FluidExample.instance "doc"
    FluidExample.createConfig FluidScenario.created.2
  = (Throw FluidStatic.DocumentInUseError, FluidScenario.created.2).
Proof. vm_compute. reflexivity. Qed.
